(** * Constitutive physics of the AGMD desalination core

    A shallow embedding of [src/dessal/physics.c]: the Maxwell membrane
    conductivity, the spacer-channel Nusselt and Sherwood correlations, the
    molecular and Knudsen diffusivities, the film-theory wall concentration and
    the trans-membrane water mass flux.

    Numbers.  [PetscReal] is read as a mathematical real: every statement below
    is about the exact-arithmetic meaning of the C expressions, with the same
    association of operators as the C grammar gives them.  [PetscPowReal],
    [PetscSqrtReal] and [PetscExpReal] are the real power, square root and
    exponential; they agree with the C library functions on the positive
    arguments the physical inputs produce.  Outside that domain the two
    readings part: [Rpower] is 1 at every base that is not positive, where the
    C [pow] returns 0 or NaN, and the real [exp] has no overflow, where the C
    [exp] returns an infinity above an argument of about 709.78.  Every
    statement over the reals therefore carries the hypotheses that keep the
    bases of its powers positive and the argument of its exponential bounded;
    module [IEEE] below gives the binary64 reading, with NaN and infinities. *)

From Stdlib Require Import Floats.
From Stdlib Require Import Reals ZArith String Lra Lia.

Local Open Scope string_scope.
Local Open Scope R_scope.

(** ** Numeric types and math primitives *)

Abbreviation PetscReal := R (only parsing).
Abbreviation PetscInt := Z (only parsing).

Definition PetscPowReal (x y : PetscReal) : PetscReal := Rpower x y.
Definition PetscSqrtReal (x : PetscReal) : PetscReal := sqrt x.
Definition PetscExpReal (x : PetscReal) : PetscReal := exp x.
Definition M_PI : PetscReal := PI.

(** ** What the two headers supply

    [entrydata.h] and [properties.h] are not part of the sources at hand.  The
    three named constants and the density correlation they declare are taken as
    parameters of the whole development; the property records carry the fields
    that [physics.c] reads through its pointers. *)

Class EntryData : Type := {
  gas_constant : PetscReal;
  water_molar_mass : PetscReal;
  atm_pressure : PetscReal
}.

Class PropertyProvider : Type := {
  SaltWaterDensity : PetscReal -> PetscReal -> PetscReal
}.

Module MoistAir.
Record t : Type := Build {
  thermal_conductivity : PetscReal
}.
End MoistAir.

Module SaltWater.
Record t : Type := Build {
  dyn_viscosity : PetscReal;
  thermal_conductivity : PetscReal;
  prandtl : PetscReal;
  mass_diffusivity : PetscReal;
  schmidt : PetscReal
}.
End SaltWater.

Definition MoistAirProperties : Type := MoistAir.t.
Definition SaltWaterProperties : Type := SaltWater.t.

(** ** The functions of [physics.c], on property snapshots

    A pointer argument is read here as the snapshot it points to;
    [p->field] is the projection.  A compound assignment [x *= e] or
    [x += e] rebinds [x]. *)

Definition MembraneConductivity
    (pore_air_prop : MoistAirProperties)
    (polymer_conductivity membrane_porosity : PetscReal) : PetscReal :=
  let air_conductivity := MoistAir.thermal_conductivity pore_air_prop in
  let beta := (polymer_conductivity - air_conductivity)
              / (polymer_conductivity + 2.0 * air_conductivity) in
  0.93 * air_conductivity * (1.0 + 2.0 * beta * (1.0 - membrane_porosity))
  / (1.0 - beta * (1.0 - membrane_porosity)).

Definition ChannelHeatTransfCoef
    (bulk_water_prop wall_water_prop : SaltWaterProperties)
    (mass_flow_rate channel_height channel_width : PetscReal)
    (number_channels : PetscInt)
    (spacer_porosity : PetscReal) : PetscReal :=
  let dyn_viscosity := SaltWater.dyn_viscosity bulk_water_prop in
  let thermal_conductivity := SaltWater.thermal_conductivity bulk_water_prop in
  let prandtl := SaltWater.prandtl bulk_water_prop in
  let wall_prandtl := SaltWater.prandtl wall_water_prop in
  let mass_velocity :=
    mass_flow_rate
    / (IZR number_channels * channel_height * channel_width * spacer_porosity) in
  let reynolds := mass_velocity * channel_height / dyn_viscosity in
  let nusselt := 0.22 * PetscPowReal reynolds 0.69 * PetscPowReal prandtl 0.13 in
  let nusselt := nusselt * PetscPowReal (prandtl / wall_prandtl) 0.25 in
  thermal_conductivity * nusselt / channel_height.

Definition ChannelMassTransfCoef
    (bulk_water_prop wall_water_prop : SaltWaterProperties)
    (mass_flow_rate channel_height channel_width : PetscReal)
    (number_channels : PetscInt)
    (spacer_porosity : PetscReal) : PetscReal :=
  let dyn_viscosity := SaltWater.dyn_viscosity bulk_water_prop in
  let mass_diffusivity := SaltWater.mass_diffusivity bulk_water_prop in
  let schmidt := SaltWater.schmidt bulk_water_prop in
  let wall_schmidt := SaltWater.schmidt wall_water_prop in
  let mass_velocity :=
    mass_flow_rate
    / (IZR number_channels * channel_height * channel_width * spacer_porosity) in
  let reynolds := mass_velocity * channel_height / dyn_viscosity in
  let sherwood := 0.22 * PetscPowReal reynolds 0.69 * PetscPowReal schmidt 0.13 in
  let sherwood := sherwood * PetscPowReal (schmidt / wall_schmidt) 0.25 in
  mass_diffusivity * sherwood / channel_height.

Definition MolecularDiffusion
    (membrane_porosity membrane_tortuosity temperature : PetscReal) : PetscReal :=
  let molecular_diffusivity := 4.46e-6 * membrane_porosity / membrane_tortuosity in
  let molecular_diffusivity :=
    molecular_diffusivity * PetscPowReal temperature 2.334 in
  molecular_diffusivity.

Section WithHeaders.

Context {entrydata : EntryData} {properties : PropertyProvider}.

Definition KnudsenDiffusion
    (membrane_porosity membrane_tortuosity pore_diameter temperature : PetscReal)
    : PetscReal :=
  let knudsen_diffusivity := pore_diameter / 3.0 in
  let knudsen_diffusivity :=
    knudsen_diffusivity * (membrane_porosity / membrane_tortuosity) in
  let knudsen_diffusivity :=
    knudsen_diffusivity
    * PetscSqrtReal (8.0 * gas_constant * temperature / (M_PI * water_molar_mass)) in
  knudsen_diffusivity.

Definition SaltWaterConcentration
    (mass_transfer_coef temperature salinity mass_flux : PetscReal) : PetscReal :=
  let density := SaltWaterDensity temperature 0.0 in
  let density_NaCl := 2160.0 in
  let molar_mass_NaCl := 58.44e-3 in
  let molarity :=
    (1.0 / molar_mass_NaCl) * salinity
    / ((1.0 - salinity) / density + salinity / density_NaCl) in
  let molarity := molarity / 1000.0 in
  let concentration :=
    molarity * PetscExpReal (mass_flux / (density * mass_transfer_coef)) in
  let converted_concentration :=
    1000.0 * molar_mass_NaCl * density_NaCl * concentration
    / (density * density_NaCl
       + molar_mass_NaCl * concentration * (density_NaCl - density)) in
  converted_concentration.

Definition MassFlux
    (membrane_porosity membrane_tortuosity membrane_thickness pore_diameter
     gap_spacer_porosity air_gap_thickness
     temperature_membrane temperature_gap
     feed_membrane_pressure film_boundary_pressure vacuum_pressure : PetscReal)
    : PetscReal :=
  let temperature_membrane := temperature_membrane + 273.15 in
  let temperature_gap := temperature_gap + 273.15 in
  let molecular_diffusivity :=
    MolecularDiffusion membrane_porosity membrane_tortuosity temperature_membrane in
  let knudsen_diffusivity :=
    KnudsenDiffusion membrane_porosity membrane_tortuosity pore_diameter
                     temperature_membrane in
  let effective_diffusivity :=
    molecular_diffusivity * knudsen_diffusivity
    / (molecular_diffusivity
       + (atm_pressure + vacuum_pressure) * knudsen_diffusivity) in
  let membrane_permeability :=
    water_molar_mass * effective_diffusivity
    / (gas_constant * temperature_membrane * membrane_thickness) in
  let molecular_diffusivity := MolecularDiffusion 1.0 1.0 temperature_gap in
  let gap_permeability :=
    water_molar_mass * molecular_diffusivity
    / (gas_constant * temperature_gap * (atm_pressure + vacuum_pressure)
       * air_gap_thickness) in
  let permeability :=
    membrane_permeability * gap_permeability
    / (membrane_permeability + gap_permeability) in
  let mass_flux := permeability * (feed_membrane_pressure - film_boundary_pressure) in
  mass_flux.

End WithHeaders.

(** ** The mass flux in closed form

    These definitions follow the wording of the design document, not the C
    text: temperatures are absolute, the diffusivities are written out, and the
    two permeabilities are combined as resistances in series.  The air-gap
    permeability comes in two readings: [stated_gap_permeability] is the bare
    quotient "molecular diffusivity divided by (R T_gap (P_atm + P_vacuum)
    gap_thickness)"; [molar_gap_permeability] carries the water molar mass in
    the numerator, as the membrane permeability does. *)

Section ClosedForm.

Context {entrydata : EntryData}.

Definition series_permeability (k_membrane k_gap : R) : R :=
  k_membrane * k_gap / (k_membrane + k_gap).

Definition design_molecular_diffusivity (porosity tortuosity T : R) : R :=
  4.46e-6 * (porosity / tortuosity) * Rpower T 2.334.

Definition design_knudsen_diffusivity
    (porosity tortuosity pore_diameter T : R) : R :=
  (pore_diameter / 3) * (porosity / tortuosity)
  * sqrt (8 * gas_constant * T / (PI * water_molar_mass)).

Definition design_effective_diffusivity (D_mol D_kn P_vacuum : R) : R :=
  D_mol * D_kn / (D_mol + (atm_pressure + P_vacuum) * D_kn).

Definition design_membrane_permeability
    (porosity tortuosity thickness pore_diameter T_membrane P_vacuum : R) : R :=
  water_molar_mass
  * design_effective_diffusivity
      (design_molecular_diffusivity porosity tortuosity T_membrane)
      (design_knudsen_diffusivity porosity tortuosity pore_diameter T_membrane)
      P_vacuum
  / (gas_constant * T_membrane * thickness).

Definition stated_gap_permeability (gap_thickness T_gap P_vacuum : R) : R :=
  design_molecular_diffusivity 1 1 T_gap
  / (gas_constant * T_gap * (atm_pressure + P_vacuum) * gap_thickness).

Definition molar_gap_permeability (gap_thickness T_gap P_vacuum : R) : R :=
  water_molar_mass * design_molecular_diffusivity 1 1 T_gap
  / (gas_constant * T_gap * (atm_pressure + P_vacuum) * gap_thickness).

(** The overall permeability and the flux, for temperatures in Celsius. *)

Definition overall_permeability
    (porosity tortuosity thickness pore_diameter gap_thickness
     celsius_membrane celsius_gap P_vacuum : R) : R :=
  series_permeability
    (design_membrane_permeability porosity tortuosity thickness pore_diameter
       (celsius_membrane + 273.15) P_vacuum)
    (molar_gap_permeability gap_thickness (celsius_gap + 273.15) P_vacuum).

Definition stated_MassFlux
    (porosity tortuosity thickness pore_diameter gap_thickness
     celsius_membrane celsius_gap P_feed_membrane P_film_boundary P_vacuum : R)
    : R :=
  series_permeability
    (design_membrane_permeability porosity tortuosity thickness pore_diameter
       (celsius_membrane + 273.15) P_vacuum)
    (stated_gap_permeability gap_thickness (celsius_gap + 273.15) P_vacuum)
  * (P_feed_membrane - P_film_boundary).

End ClosedForm.

(** ** Sample header values

    Concrete parameters on which the general statements are instantiated: the
    gas constant, the molar mass of water and the standard atmosphere in SI
    units, and a property provider whose fresh-water density is 1000 kg/m3. *)

Definition SI_entrydata : EntryData :=
  {| gas_constant := 8.314;
     water_molar_mass := 18.015e-3;
     atm_pressure := 101325 |}.

Definition fresh_water_provider : PropertyProvider :=
  {| SaltWaterDensity := fun _ _ => 1000 |}.

(** ** Calls, with the caller's storage made explicit

    The three functions that receive property structs get them by address.
    [Memory] is the storage the caller holds: its property structs and its
    scalar variables.  A call is a computation over it that may fail (an
    address with no struct behind it) and returns the memory it leaves.
    Scalar arguments arrive by value in the callee's own [Frame], where
    compound assignments to a parameter take place. *)

Module Machine.

Definition address : Type := nat.

Record Memory : Type := {
  salt_water_at : address -> option SaltWaterProperties;
  moist_air_at : address -> option MoistAirProperties;
  scalar_at : address -> option PetscReal
}.

Definition Exec (A : Type) : Type := Memory -> option (A * Memory).

Definition ret {A : Type} (a : A) : Exec A := fun m => Some (a, m).

Definition bind {A B : Type} (c : Exec A) (k : A -> Exec B) : Exec B :=
  fun m => match c m with
           | Some (a, m') => k a m'
           | None => None
           end.

Notation "x <- c ;; k" := (bind c (fun x => k))
  (at level 61, c at next level, right associativity).

Definition read_salt_water (p : address) : Exec SaltWaterProperties :=
  fun m => match salt_water_at m p with
           | Some s => Some (s, m)
           | None => None
           end.

Definition read_moist_air (p : address) : Exec MoistAirProperties :=
  fun m => match moist_air_at m p with
           | Some a => Some (a, m)
           | None => None
           end.

(** A store through a struct pointer.  [physics.c] contains none; it is here
    to say what a call that did write would do to the memory. *)

Definition store_salt_water (p : address) (s : SaltWaterProperties) : Exec unit :=
  fun m =>
    match salt_water_at m p with
    | Some _ =>
        Some (tt, {| salt_water_at :=
                       fun q => if Nat.eqb q p then Some s else salt_water_at m q;
                     moist_air_at := moist_air_at m;
                     scalar_at := scalar_at m |})
    | None => None
    end.

Definition call_MembraneConductivity
    (pore_air_prop : address)
    (polymer_conductivity membrane_porosity : PetscReal) : Exec PetscReal :=
  air <- read_moist_air pore_air_prop ;;
  ret (MembraneConductivity air polymer_conductivity membrane_porosity).

Definition call_ChannelHeatTransfCoef
    (bulk_water_prop wall_water_prop : address)
    (mass_flow_rate channel_height channel_width : PetscReal)
    (number_channels : PetscInt)
    (spacer_porosity : PetscReal) : Exec PetscReal :=
  bulk <- read_salt_water bulk_water_prop ;;
  wall <- read_salt_water wall_water_prop ;;
  ret (ChannelHeatTransfCoef bulk wall mass_flow_rate channel_height
         channel_width number_channels spacer_porosity).

Definition call_ChannelMassTransfCoef
    (bulk_water_prop wall_water_prop : address)
    (mass_flow_rate channel_height channel_width : PetscReal)
    (number_channels : PetscInt)
    (spacer_porosity : PetscReal) : Exec PetscReal :=
  bulk <- read_salt_water bulk_water_prop ;;
  wall <- read_salt_water wall_water_prop ;;
  ret (ChannelMassTransfCoef bulk wall mass_flow_rate channel_height
         channel_width number_channels spacer_porosity).

(** A computation preserves the caller's storage when every run that returns
    hands back the memory it was started in. *)

Definition preserves_memory {A : Type} (c : Exec A) : Prop :=
  forall (m m' : Memory) (a : A), c m = Some (a, m') -> m' = m.

(** The callee's frame: its parameters and locals, by name. *)

Definition Frame : Type := string -> PetscReal.

Definition assign (x : string) (v : PetscReal) (f : Frame) : Frame :=
  fun y => if String.eqb x y then v else f y.

Section WithHeaders.

Context {entrydata : EntryData} {properties : PropertyProvider}.

(** The frame [MassFlux] starts in: each parameter holds a copy of the
    argument passed for it; the locals are not yet initialised (read as 0). *)

Definition MassFlux_entry
    (membrane_porosity membrane_tortuosity membrane_thickness pore_diameter
     gap_spacer_porosity air_gap_thickness
     temperature_membrane temperature_gap
     feed_membrane_pressure film_boundary_pressure vacuum_pressure : PetscReal)
    : Frame :=
  assign "membrane_porosity" membrane_porosity
  (assign "membrane_tortuosity" membrane_tortuosity
  (assign "membrane_thickness" membrane_thickness
  (assign "pore_diameter" pore_diameter
  (assign "gap_spacer_porosity" gap_spacer_porosity
  (assign "air_gap_thickness" air_gap_thickness
  (assign "temperature_membrane" temperature_membrane
  (assign "temperature_gap" temperature_gap
  (assign "feed_membrane_pressure" feed_membrane_pressure
  (assign "film_boundary_pressure" film_boundary_pressure
  (assign "vacuum_pressure" vacuum_pressure (fun _ => 0))))))))))).

(** The body of [MassFlux], one assignment per C statement. *)

Definition MassFlux_body (f : Frame) : Frame :=
  let f := assign "temperature_membrane" (f "temperature_membrane" + 273.15) f in
  let f := assign "temperature_gap" (f "temperature_gap" + 273.15) f in
  let f := assign "molecular_diffusivity"
             (MolecularDiffusion (f "membrane_porosity") (f "membrane_tortuosity")
                (f "temperature_membrane")) f in
  let f := assign "knudsen_diffusivity"
             (KnudsenDiffusion (f "membrane_porosity") (f "membrane_tortuosity")
                (f "pore_diameter") (f "temperature_membrane")) f in
  let f := assign "effective_diffusivity"
             (f "molecular_diffusivity" * f "knudsen_diffusivity"
              / (f "molecular_diffusivity"
                 + (atm_pressure + f "vacuum_pressure") * f "knudsen_diffusivity"))
             f in
  let f := assign "membrane_permeability"
             (water_molar_mass * f "effective_diffusivity"
              / (gas_constant * f "temperature_membrane" * f "membrane_thickness"))
             f in
  let f := assign "molecular_diffusivity"
             (MolecularDiffusion 1.0 1.0 (f "temperature_gap")) f in
  let f := assign "gap_permeability"
             (water_molar_mass * f "molecular_diffusivity"
              / (gas_constant * f "temperature_gap"
                 * (atm_pressure + f "vacuum_pressure") * f "air_gap_thickness"))
             f in
  let f := assign "permeability"
             (f "membrane_permeability" * f "gap_permeability"
              / (f "membrane_permeability" + f "gap_permeability")) f in
  let f := assign "mass_flux"
             (f "permeability"
              * (f "feed_membrane_pressure" - f "film_boundary_pressure")) f in
  f.

Definition call_MassFlux
    (membrane_porosity membrane_tortuosity membrane_thickness pore_diameter
     gap_spacer_porosity air_gap_thickness
     temperature_membrane temperature_gap
     feed_membrane_pressure film_boundary_pressure vacuum_pressure : PetscReal)
    : Exec PetscReal :=
  ret (MassFlux_body
         (MassFlux_entry membrane_porosity membrane_tortuosity membrane_thickness
            pore_diameter gap_spacer_porosity air_gap_thickness
            temperature_membrane temperature_gap
            feed_membrane_pressure film_boundary_pressure vacuum_pressure)
         "mass_flux").

(** The remaining functions take scalars only and call nothing that could
    reach the caller's storage. *)

Definition call_MolecularDiffusion
    (membrane_porosity membrane_tortuosity temperature : PetscReal)
    : Exec PetscReal :=
  ret (MolecularDiffusion membrane_porosity membrane_tortuosity temperature).

Definition call_KnudsenDiffusion
    (membrane_porosity membrane_tortuosity pore_diameter temperature : PetscReal)
    : Exec PetscReal :=
  ret (KnudsenDiffusion membrane_porosity membrane_tortuosity pore_diameter
         temperature).

Definition call_SaltWaterConcentration
    (mass_transfer_coef temperature salinity mass_flux : PetscReal)
    : Exec PetscReal :=
  ret (SaltWaterConcentration mass_transfer_coef temperature salinity mass_flux).

End WithHeaders.

(** A caller's storage with one brine snapshot at address 0, one moist-air
    snapshot at address 1 and two Celsius temperatures at addresses 2 and 3. *)

Definition sample_memory : Memory :=
  {| salt_water_at := fun p =>
       match p with
       | O => Some (SaltWater.Build 1.0e-3 0.6 7.0 1.5e-9 600)
       | _ => None
       end;
     moist_air_at := fun p =>
       match p with
       | 1%nat => Some (MoistAir.Build 0.028)
       | _ => None
       end;
     scalar_at := fun p =>
       match p with
       | 2%nat => Some 60
       | 3%nat => Some 25
       | _ => None
       end |}.

End Machine.

(** ** The same functions in IEEE-754 binary64

    [PetscReal] is a C [double].  Module [IEEE] transcribes the seven
    functions once more over the binary64 numbers of the kernel, whose
    [+ - * /] and square root round as the hardware does and which have the
    values NaN and plus and minus infinity.  The decimal constants are read to
    the nearest binary64 number, as the C compiler reads them.  The C library's
    [pow] and [exp], the three named constants and the density correlation
    are parameters; what a theorem needs of [pow] and [exp] at special
    arguments is collected in [AnnexF], after Annex F of the C standard. *)

Module IEEE.

#[local] Set Warnings "-inexact-float".
Local Open Scope float_scope.

Definition PetscSqrtReal (x : float) : float := PrimFloat.sqrt x.
Definition M_PI : float := 0x1.921fb54442d18p+1.

(** The conversion of a [PetscInt] in a floating-point product: the nearest
    binary64 number. *)
Definition double_of_int (n : Z) : float :=
  SF2Prim (binary_normalize prec emax n 0%Z false).

Class Libm : Type := {
  PetscPowReal : float -> float -> float;
  PetscExpReal : float -> float
}.

Class EntryData : Type := {
  gas_constant : float;
  water_molar_mass : float;
  atm_pressure : float
}.

Class PropertyProvider : Type := {
  SaltWaterDensity : float -> float -> float
}.

Module MoistAir.
Record t : Type := Build {
  thermal_conductivity : float
}.
End MoistAir.

Module SaltWater.
Record t : Type := Build {
  dyn_viscosity : float;
  thermal_conductivity : float;
  prandtl : float;
  mass_diffusivity : float;
  schmidt : float
}.
End SaltWater.

(** A result is special when it is NaN or an infinity, and a zero when it is
    +0 or -0. *)

Definition is_special (x : float) : bool :=
  match classify x with
  | NaN | PInf | NInf => true
  | _ => false
  end.

Definition is_zero (x : float) : bool :=
  match classify x with
  | PZero | NZero => true
  | _ => false
  end.

(** What Annex F of the C standard fixes for [pow] and [exp] and is used
    below: [pow] of a NaN or infinite base with a positive exponent is NaN or
    infinite; [pow] of a finite negative base with the non-integer exponent
    0.69 is NaN; [exp] of a zero is 1. *)

Record AnnexF (libm : Libm) : Prop := {
  pow_special_base :
    forall x y : float,
      is_special x = true -> (0 <? y) = true ->
      is_special (PetscPowReal x y) = true;
  pow_negative_base :
    forall x : float,
      (x <? 0) = true -> is_special x = false ->
      classify (PetscPowReal x 0.69) = NaN;
  exp_zero :
    forall x : float, is_zero x = true -> PetscExpReal x = 1
}.

Definition MembraneConductivity
    (pore_air_prop : MoistAir.t)
    (polymer_conductivity membrane_porosity : float) : float :=
  let air_conductivity := MoistAir.thermal_conductivity pore_air_prop in
  let beta := (polymer_conductivity - air_conductivity)
              / (polymer_conductivity + 2.0 * air_conductivity) in
  0.93 * air_conductivity * (1.0 + 2.0 * beta * (1.0 - membrane_porosity))
  / (1.0 - beta * (1.0 - membrane_porosity)).

Section WithHeaders.

Context {libm : Libm} {entrydata : EntryData} {properties : PropertyProvider}.

Definition ChannelHeatTransfCoef
    (bulk_water_prop wall_water_prop : SaltWater.t)
    (mass_flow_rate channel_height channel_width : float)
    (number_channels : Z)
    (spacer_porosity : float) : float :=
  let dyn_viscosity := SaltWater.dyn_viscosity bulk_water_prop in
  let thermal_conductivity := SaltWater.thermal_conductivity bulk_water_prop in
  let prandtl := SaltWater.prandtl bulk_water_prop in
  let wall_prandtl := SaltWater.prandtl wall_water_prop in
  let mass_velocity :=
    mass_flow_rate
    / (double_of_int number_channels * channel_height * channel_width
       * spacer_porosity) in
  let reynolds := mass_velocity * channel_height / dyn_viscosity in
  let nusselt := 0.22 * PetscPowReal reynolds 0.69 * PetscPowReal prandtl 0.13 in
  let nusselt := nusselt * PetscPowReal (prandtl / wall_prandtl) 0.25 in
  thermal_conductivity * nusselt / channel_height.

Definition ChannelMassTransfCoef
    (bulk_water_prop wall_water_prop : SaltWater.t)
    (mass_flow_rate channel_height channel_width : float)
    (number_channels : Z)
    (spacer_porosity : float) : float :=
  let dyn_viscosity := SaltWater.dyn_viscosity bulk_water_prop in
  let mass_diffusivity := SaltWater.mass_diffusivity bulk_water_prop in
  let schmidt := SaltWater.schmidt bulk_water_prop in
  let wall_schmidt := SaltWater.schmidt wall_water_prop in
  let mass_velocity :=
    mass_flow_rate
    / (double_of_int number_channels * channel_height * channel_width
       * spacer_porosity) in
  let reynolds := mass_velocity * channel_height / dyn_viscosity in
  let sherwood := 0.22 * PetscPowReal reynolds 0.69 * PetscPowReal schmidt 0.13 in
  let sherwood := sherwood * PetscPowReal (schmidt / wall_schmidt) 0.25 in
  mass_diffusivity * sherwood / channel_height.

Definition MolecularDiffusion
    (membrane_porosity membrane_tortuosity temperature : float) : float :=
  let molecular_diffusivity := 4.46e-6 * membrane_porosity / membrane_tortuosity in
  let molecular_diffusivity :=
    molecular_diffusivity * PetscPowReal temperature 2.334 in
  molecular_diffusivity.

Definition KnudsenDiffusion
    (membrane_porosity membrane_tortuosity pore_diameter temperature : float)
    : float :=
  let knudsen_diffusivity := pore_diameter / 3.0 in
  let knudsen_diffusivity :=
    knudsen_diffusivity * (membrane_porosity / membrane_tortuosity) in
  let knudsen_diffusivity :=
    knudsen_diffusivity
    * PetscSqrtReal (8.0 * gas_constant * temperature / (M_PI * water_molar_mass)) in
  knudsen_diffusivity.

Definition SaltWaterConcentration
    (mass_transfer_coef temperature salinity mass_flux : float) : float :=
  let density := SaltWaterDensity temperature 0.0 in
  let density_NaCl := 2160.0 in
  let molar_mass_NaCl := 58.44e-3 in
  let molarity :=
    (1.0 / molar_mass_NaCl) * salinity
    / ((1.0 - salinity) / density + salinity / density_NaCl) in
  let molarity := molarity / 1000.0 in
  let concentration :=
    molarity * PetscExpReal (mass_flux / (density * mass_transfer_coef)) in
  let converted_concentration :=
    1000.0 * molar_mass_NaCl * density_NaCl * concentration
    / (density * density_NaCl
       + molar_mass_NaCl * concentration * (density_NaCl - density)) in
  converted_concentration.

Definition MassFlux
    (membrane_porosity membrane_tortuosity membrane_thickness pore_diameter
     gap_spacer_porosity air_gap_thickness
     temperature_membrane temperature_gap
     feed_membrane_pressure film_boundary_pressure vacuum_pressure : float)
    : float :=
  let temperature_membrane := temperature_membrane + 273.15 in
  let temperature_gap := temperature_gap + 273.15 in
  let molecular_diffusivity :=
    MolecularDiffusion membrane_porosity membrane_tortuosity temperature_membrane in
  let knudsen_diffusivity :=
    KnudsenDiffusion membrane_porosity membrane_tortuosity pore_diameter
                     temperature_membrane in
  let effective_diffusivity :=
    molecular_diffusivity * knudsen_diffusivity
    / (molecular_diffusivity
       + (atm_pressure + vacuum_pressure) * knudsen_diffusivity) in
  let membrane_permeability :=
    water_molar_mass * effective_diffusivity
    / (gas_constant * temperature_membrane * membrane_thickness) in
  let molecular_diffusivity := MolecularDiffusion 1.0 1.0 temperature_gap in
  let gap_permeability :=
    water_molar_mass * molecular_diffusivity
    / (gas_constant * temperature_gap * (atm_pressure + vacuum_pressure)
       * air_gap_thickness) in
  let permeability :=
    membrane_permeability * gap_permeability
    / (membrane_permeability + gap_permeability) in
  let mass_flux := permeability * (feed_membrane_pressure - film_boundary_pressure) in
  mass_flux.

End WithHeaders.

(** Sample parameters: the SI constants, a fresh-water density of 1000 and
    one equal to the NaCl density, and stand-ins for [pow] and [exp] that
    take the Annex F values at the special arguments. *)

Definition SI_entrydata : EntryData :=
  {| gas_constant := 8.314;
     water_molar_mass := 18.015e-3;
     atm_pressure := 101325 |}.

Definition fresh_water_provider : PropertyProvider :=
  {| SaltWaterDensity := fun _ _ => 1000 |}.

Definition NaCl_dense_provider : PropertyProvider :=
  {| SaltWaterDensity := fun _ _ => 2160 |}.

Definition sample_libm : Libm :=
  {| PetscPowReal := fun x _ =>
       if is_special x then x * x else if x <? 0 then nan else x;
     PetscExpReal := fun x => 1 + x |}.

End IEEE.

(** * Properties *)

(** The C text writes whole numbers with a trailing [.0]; as reals they are
    the integers, which is the form [ring] and [field] work on. *)

Lemma whole_literals :
  0.0 = 0 /\ 1.0 = 1 /\ 2.0 = 2 /\ 3.0 = 3 /\ 8.0 = 8
  /\ 1000.0 = 1000 /\ 2160.0 = 2160.
Proof. repeat split; lra. Qed.

Ltac whole_numbers :=
  let H0 := fresh in let H1 := fresh in let H2 := fresh in let H3 := fresh in
  let H8 := fresh in let Hk := fresh in let Hn := fresh in
  destruct whole_literals as (H0 & H1 & H2 & H3 & H8 & Hk & Hn);
  rewrite ?H0, ?H1, ?H2, ?H3, ?H8, ?Hk, ?Hn;
  clear H0 H1 H2 H3 H8 Hk Hn.

(** ** Arithmetic of the series combination and signs of the diffusivities *)

Lemma series_permeability_pos (a b : R) :
  0 < a -> 0 < b -> 0 < series_permeability a b.
Proof.
  intros Ha Hb. unfold series_permeability.
  apply Rdiv_lt_0_compat; [apply Rmult_lt_0_compat|]; lra.
Qed.

Lemma series_permeability_gap (k x y : R) :
  0 < k -> 0 < x -> 0 < y ->
  series_permeability k y - series_permeability k x
  = k * k * (y - x) / ((k + x) * (k + y)).
Proof.
  intros Hk Hx Hy. unfold series_permeability. field. lra.
Qed.

Lemma series_permeability_lt (k x y : R) :
  0 < k -> 0 < x -> x < y ->
  series_permeability k x < series_permeability k y.
Proof.
  intros Hk Hx Hxy.
  apply Rlt_0_minus. rewrite series_permeability_gap by lra.
  apply Rdiv_lt_0_compat.
  - apply Rmult_lt_0_compat; [apply Rmult_lt_0_compat|]; lra.
  - apply Rmult_lt_0_compat; lra.
Qed.

Lemma MolecularDiffusion_design (porosity tortuosity T : R) :
  MolecularDiffusion porosity tortuosity T
  = design_molecular_diffusivity porosity tortuosity T.
Proof.
  unfold MolecularDiffusion, design_molecular_diffusivity, PetscPowReal, Rdiv.
  cbv zeta. ring.
Qed.

Lemma design_molecular_diffusivity_pos (porosity tortuosity T : R) :
  0 < porosity -> 0 < tortuosity ->
  0 < design_molecular_diffusivity porosity tortuosity T.
Proof.
  intros He Ht. unfold design_molecular_diffusivity.
  apply Rmult_lt_0_compat; [apply Rmult_lt_0_compat; [lra|]|].
  - now apply Rdiv_lt_0_compat.
  - unfold Rpower. apply exp_pos.
Qed.

Section DiffusionFacts.

Context {entrydata : EntryData}.

Hypothesis gas_constant_pos : 0 < gas_constant.
Hypothesis water_molar_mass_pos : 0 < water_molar_mass.

Lemma KnudsenDiffusion_design (porosity tortuosity pore_diameter T : R) :
  KnudsenDiffusion porosity tortuosity pore_diameter T
  = design_knudsen_diffusivity porosity tortuosity pore_diameter T.
Proof.
  unfold KnudsenDiffusion, design_knudsen_diffusivity, PetscSqrtReal, M_PI.
  cbv zeta. whole_numbers. reflexivity.
Qed.

Lemma kinetic_factor_pos (T : R) :
  0 < T -> 0 < 8 * gas_constant * T / (PI * water_molar_mass).
Proof.
  intros HT. pose proof PI_RGT_0 as Hpi.
  apply Rdiv_lt_0_compat.
  - repeat apply Rmult_lt_0_compat; lra.
  - apply Rmult_lt_0_compat; lra.
Qed.

Lemma design_knudsen_diffusivity_pos (porosity tortuosity pore_diameter T : R) :
  0 < porosity -> 0 < tortuosity -> 0 < pore_diameter -> 0 < T ->
  0 < design_knudsen_diffusivity porosity tortuosity pore_diameter T.
Proof.
  intros He Ht Hd HT. unfold design_knudsen_diffusivity.
  apply Rmult_lt_0_compat; [apply Rmult_lt_0_compat|].
  - lra.
  - now apply Rdiv_lt_0_compat.
  - apply sqrt_lt_R0. now apply kinetic_factor_pos.
Qed.

Lemma design_membrane_permeability_pos
    (porosity tortuosity thickness pore_diameter T P_vacuum : R) :
  0 < porosity -> 0 < tortuosity -> 0 < thickness -> 0 < pore_diameter ->
  0 < T -> 0 < atm_pressure + P_vacuum ->
  0 < design_membrane_permeability porosity tortuosity thickness pore_diameter
        T P_vacuum.
Proof.
  intros He Ht Hth Hd HT HP.
  pose proof (design_molecular_diffusivity_pos porosity tortuosity T He Ht) as Hm.
  pose proof (design_knudsen_diffusivity_pos porosity tortuosity pore_diameter T
                He Ht Hd HT) as Hk.
  unfold design_membrane_permeability, design_effective_diffusivity.
  set (Dm := design_molecular_diffusivity porosity tortuosity T) in *.
  set (Dk := design_knudsen_diffusivity porosity tortuosity pore_diameter T) in *.
  assert (0 < (atm_pressure + P_vacuum) * Dk) by now apply Rmult_lt_0_compat.
  apply Rdiv_lt_0_compat.
  - apply Rmult_lt_0_compat; [lra|].
    apply Rdiv_lt_0_compat; [now apply Rmult_lt_0_compat | lra].
  - repeat apply Rmult_lt_0_compat; lra.
Qed.

Lemma gap_denominator_pos (gap_thickness T P_vacuum : R) :
  0 < gap_thickness -> 0 < T -> 0 < atm_pressure + P_vacuum ->
  0 < gas_constant * T * (atm_pressure + P_vacuum) * gap_thickness.
Proof.
  intros Hg HT HP. repeat apply Rmult_lt_0_compat; lra.
Qed.

Lemma stated_gap_permeability_pos (gap_thickness T P_vacuum : R) :
  0 < gap_thickness -> 0 < T -> 0 < atm_pressure + P_vacuum ->
  0 < stated_gap_permeability gap_thickness T P_vacuum.
Proof.
  intros Hg HT HP. unfold stated_gap_permeability.
  apply Rdiv_lt_0_compat.
  - apply design_molecular_diffusivity_pos; lra.
  - now apply gap_denominator_pos.
Qed.

Lemma molar_gap_permeability_stated (gap_thickness T P_vacuum : R) :
  molar_gap_permeability gap_thickness T P_vacuum
  = water_molar_mass * stated_gap_permeability gap_thickness T P_vacuum.
Proof.
  unfold molar_gap_permeability, stated_gap_permeability, Rdiv. ring.
Qed.

Lemma molar_gap_permeability_pos (gap_thickness T P_vacuum : R) :
  0 < gap_thickness -> 0 < T -> 0 < atm_pressure + P_vacuum ->
  0 < molar_gap_permeability gap_thickness T P_vacuum.
Proof.
  intros Hg HT HP. rewrite molar_gap_permeability_stated.
  apply Rmult_lt_0_compat; [lra|]. now apply stated_gap_permeability_pos.
Qed.

Lemma overall_permeability_pos
    (porosity tortuosity thickness pore_diameter gap_thickness
     celsius_membrane celsius_gap P_vacuum : R) :
  0 < porosity -> 0 < tortuosity -> 0 < thickness -> 0 < pore_diameter ->
  0 < gap_thickness ->
  0 < celsius_membrane + 273.15 -> 0 < celsius_gap + 273.15 ->
  0 < atm_pressure + P_vacuum ->
  0 < overall_permeability porosity tortuosity thickness pore_diameter
        gap_thickness celsius_membrane celsius_gap P_vacuum.
Proof.
  intros. unfold overall_permeability. apply series_permeability_pos.
  - now apply design_membrane_permeability_pos.
  - now apply molar_gap_permeability_pos.
Qed.

End DiffusionFacts.

(** ** The water mass flux *)

Section MassFluxFacts.

Context {entrydata : EntryData}.

Lemma MassFlux_overall_permeability
    (membrane_porosity membrane_tortuosity membrane_thickness pore_diameter
     gap_spacer_porosity air_gap_thickness temperature_membrane temperature_gap
     feed_membrane_pressure film_boundary_pressure vacuum_pressure : R) :
  MassFlux membrane_porosity membrane_tortuosity membrane_thickness pore_diameter
    gap_spacer_porosity air_gap_thickness temperature_membrane temperature_gap
    feed_membrane_pressure film_boundary_pressure vacuum_pressure
  = overall_permeability membrane_porosity membrane_tortuosity membrane_thickness
      pore_diameter air_gap_thickness temperature_membrane temperature_gap
      vacuum_pressure
    * (feed_membrane_pressure - film_boundary_pressure).
Proof.
  unfold MassFlux, overall_permeability. cbv zeta.
  rewrite !MolecularDiffusion_design, KnudsenDiffusion_design.
  whole_numbers. reflexivity.
Qed.

(** With a water molar mass below one (it is 0.018 kg/mol), the bare-quotient
    reading of the gap permeability gives a larger flux than the code. *)
Lemma MassFlux_below_stated
    (membrane_porosity membrane_tortuosity membrane_thickness pore_diameter
     gap_spacer_porosity air_gap_thickness temperature_membrane temperature_gap
     feed_membrane_pressure film_boundary_pressure vacuum_pressure : R) :
  0 < gas_constant -> 0 < water_molar_mass < 1 ->
  0 < membrane_porosity -> 0 < membrane_tortuosity ->
  0 < membrane_thickness -> 0 < pore_diameter -> 0 < air_gap_thickness ->
  0 < temperature_membrane + 273.15 -> 0 < temperature_gap + 273.15 ->
  0 < atm_pressure + vacuum_pressure ->
  film_boundary_pressure < feed_membrane_pressure ->
  MassFlux membrane_porosity membrane_tortuosity membrane_thickness pore_diameter
    gap_spacer_porosity air_gap_thickness temperature_membrane temperature_gap
    feed_membrane_pressure film_boundary_pressure vacuum_pressure
  < stated_MassFlux membrane_porosity membrane_tortuosity membrane_thickness
      pore_diameter air_gap_thickness temperature_membrane temperature_gap
      feed_membrane_pressure film_boundary_pressure vacuum_pressure.
Proof.
  intros HR [HM HM1] He Ht Hth Hd Hg HTm HTg HP Hdp.
  rewrite MassFlux_overall_permeability.
  unfold overall_permeability, stated_MassFlux.
  apply Rmult_lt_compat_r; [lra|].
  pose proof (stated_gap_permeability_pos HR air_gap_thickness
                (temperature_gap + 273.15) vacuum_pressure Hg HTg HP) as Hs.
  apply series_permeability_lt.
  - now apply design_membrane_permeability_pos.
  - now apply molar_gap_permeability_pos.
  - rewrite molar_gap_permeability_stated. nra.
Qed.

(** C1 (as amended).  For all arguments, [MassFlux] returns
    k_overall * (feed_membrane_pressure - film_boundary_pressure), where
    k_overall = k_membrane * k_gap / (k_membrane + k_gap),
    k_membrane = M_water * D_eff / (R * T_membrane * membrane_thickness) with
    D_eff = D_mol * D_kn / (D_mol + (P_atm + P_vacuum) * D_kn) at the membrane
    temperature, and
    k_gap = M_water * D_mol(1, 1, T_gap)
            / (R * T_gap * (P_atm + P_vacuum) * air_gap_thickness):
    the water molar mass multiplies the gap diffusivity as well.  Both
    temperatures are the Celsius arguments plus 273.15. *)
Theorem MassFlux_series_formula
    (membrane_porosity membrane_tortuosity membrane_thickness pore_diameter
     gap_spacer_porosity air_gap_thickness temperature_membrane temperature_gap
     feed_membrane_pressure film_boundary_pressure vacuum_pressure : R) :
  MassFlux membrane_porosity membrane_tortuosity membrane_thickness pore_diameter
    gap_spacer_porosity air_gap_thickness temperature_membrane temperature_gap
    feed_membrane_pressure film_boundary_pressure vacuum_pressure
  = series_permeability
      (design_membrane_permeability membrane_porosity membrane_tortuosity
         membrane_thickness pore_diameter (temperature_membrane + 273.15)
         vacuum_pressure)
      (molar_gap_permeability air_gap_thickness (temperature_gap + 273.15)
         vacuum_pressure)
    * (feed_membrane_pressure - film_boundary_pressure).
Proof.
  apply MassFlux_overall_permeability.
Qed.

(** C9.  [MassFlux] does not depend on [gap_spacer_porosity]: any two values
    of that argument give the same result when the other ten are equal. *)
Theorem MassFlux_ignores_gap_spacer_porosity
    (membrane_porosity membrane_tortuosity membrane_thickness pore_diameter
     air_gap_thickness temperature_membrane temperature_gap
     feed_membrane_pressure film_boundary_pressure vacuum_pressure : R)
    (gap_spacer_porosity gap_spacer_porosity' : R) :
  MassFlux membrane_porosity membrane_tortuosity membrane_thickness pore_diameter
    gap_spacer_porosity air_gap_thickness temperature_membrane temperature_gap
    feed_membrane_pressure film_boundary_pressure vacuum_pressure
  = MassFlux membrane_porosity membrane_tortuosity membrane_thickness pore_diameter
      gap_spacer_porosity' air_gap_thickness temperature_membrane temperature_gap
      feed_membrane_pressure film_boundary_pressure vacuum_pressure.
Proof.
  unfold MassFlux. reflexivity.
Qed.

(** C2.  For positive constants, positive geometry, absolute temperatures
    above zero and a positive total gas pressure, [MassFlux] is the pressure
    difference times a positive factor that does not depend on the two
    pressures: it is linear in (feed_membrane_pressure -
    film_boundary_pressure), increasing in it, and zero when the two
    pressures are equal. *)
Theorem MassFlux_linear_in_pressure_difference
    (membrane_porosity membrane_tortuosity membrane_thickness pore_diameter
     gap_spacer_porosity air_gap_thickness temperature_membrane temperature_gap
     vacuum_pressure : R) :
  0 < gas_constant -> 0 < water_molar_mass ->
  0 < membrane_porosity -> 0 < membrane_tortuosity ->
  0 < membrane_thickness -> 0 < pore_diameter -> 0 < air_gap_thickness ->
  0 < temperature_membrane + 273.15 -> 0 < temperature_gap + 273.15 ->
  0 < atm_pressure + vacuum_pressure ->
  exists k : R,
    0 < k
    /\ (forall p_feed p_film : R,
          MassFlux membrane_porosity membrane_tortuosity membrane_thickness
            pore_diameter gap_spacer_porosity air_gap_thickness
            temperature_membrane temperature_gap p_feed p_film vacuum_pressure
          = k * (p_feed - p_film))
    /\ (forall p_feed p_film p_feed' p_film' : R,
          p_feed - p_film < p_feed' - p_film' ->
          MassFlux membrane_porosity membrane_tortuosity membrane_thickness
            pore_diameter gap_spacer_porosity air_gap_thickness
            temperature_membrane temperature_gap p_feed p_film vacuum_pressure
          < MassFlux membrane_porosity membrane_tortuosity membrane_thickness
              pore_diameter gap_spacer_porosity air_gap_thickness
              temperature_membrane temperature_gap p_feed' p_film' vacuum_pressure)
    /\ (forall p_feed p_film p_feed' p_film' : R,
          p_feed - p_film <= p_feed' - p_film' ->
          MassFlux membrane_porosity membrane_tortuosity membrane_thickness
            pore_diameter gap_spacer_porosity air_gap_thickness
            temperature_membrane temperature_gap p_feed p_film vacuum_pressure
          <= MassFlux membrane_porosity membrane_tortuosity membrane_thickness
               pore_diameter gap_spacer_porosity air_gap_thickness
               temperature_membrane temperature_gap p_feed' p_film' vacuum_pressure)
    /\ (forall p : R,
          MassFlux membrane_porosity membrane_tortuosity membrane_thickness
            pore_diameter gap_spacer_porosity air_gap_thickness
            temperature_membrane temperature_gap p p vacuum_pressure
          = 0).
Proof.
  intros HR HM He Ht Hth Hd Hg HTm HTg HP.
  exists (overall_permeability membrane_porosity membrane_tortuosity
            membrane_thickness pore_diameter air_gap_thickness
            temperature_membrane temperature_gap vacuum_pressure).
  assert (Hk : 0 < overall_permeability membrane_porosity membrane_tortuosity
                     membrane_thickness pore_diameter air_gap_thickness
                     temperature_membrane temperature_gap vacuum_pressure)
    by now apply overall_permeability_pos.
  assert (Hlin : forall p_feed p_film : R,
            MassFlux membrane_porosity membrane_tortuosity membrane_thickness
              pore_diameter gap_spacer_porosity air_gap_thickness
              temperature_membrane temperature_gap p_feed p_film vacuum_pressure
            = overall_permeability membrane_porosity membrane_tortuosity
                membrane_thickness pore_diameter air_gap_thickness
                temperature_membrane temperature_gap vacuum_pressure
              * (p_feed - p_film))
    by (intros; apply MassFlux_overall_permeability).
  repeat split.
  - exact Hk.
  - exact Hlin.
  - intros pf pb pf' pb' Hlt. rewrite !Hlin.
    now apply Rmult_lt_compat_l.
  - intros pf pb pf' pb' Hle. rewrite !Hlin.
    apply Rmult_le_compat_l; lra.
  - intros p. rewrite Hlin. ring.
Qed.

End MassFluxFacts.

(** C1, the claim as stated, at the module of the end-to-end scenario
    (porosity 0.8, tortuosity 1.5, pore diameter 0.2e-6 m, membrane thickness
    100e-6 m, air gap 1e-3 m, 60 and 25 degrees Celsius, feed-side and
    film-boundary pressures 19946 Pa and 3170 Pa, no vacuum, SI constants):
    the flux the code returns is strictly below the value obtained with
    k_gap = D_mol / (R * T_gap * (P_atm + P_vacuum) * air_gap_thickness). *)
Lemma MassFlux_is_not_the_stated_formula :
  MassFlux (entrydata := SI_entrydata)
    0.8 1.5 100e-6 0.2e-6 0.8 1e-3 60 25 19946 3170 0
  < stated_MassFlux (entrydata := SI_entrydata)
      0.8 1.5 100e-6 0.2e-6 1e-3 60 25 19946 3170 0.
Proof.
  apply MassFlux_below_stated; cbn [gas_constant water_molar_mass atm_pressure
                                     SI_entrydata]; lra.
Qed.

Lemma MassFlux_linear_in_pressure_difference_witness :
  exists k : R,
    0 < k
    /\ forall p_feed p_film : R,
         MassFlux (entrydata := SI_entrydata)
           0.8 1.5 100e-6 0.2e-6 0.8 1e-3 60 25 p_feed p_film 0
         = k * (p_feed - p_film).
Proof.
  destruct (MassFlux_linear_in_pressure_difference (entrydata := SI_entrydata)
              0.8 1.5 100e-6 0.2e-6 0.8 1e-3 60 25 0)
    as [k [Hk [Hlin _]]];
    try (cbn [gas_constant water_molar_mass atm_pressure SI_entrydata]; lra).
  exists k. split; [exact Hk | exact Hlin].
Defined.

(** ** Membrane conductivity *)

(** C4.  For positive air and polymer conductivities, [MembraneConductivity]
    at porosity 1 is 0.93 times the air conductivity, and at porosity 0 it is
    0.93 times the polymer conductivity. *)
Theorem MembraneConductivity_limits
    (pore_air_prop : MoistAirProperties) (polymer_conductivity : R) :
  0 < MoistAir.thermal_conductivity pore_air_prop ->
  0 < polymer_conductivity ->
  MembraneConductivity pore_air_prop polymer_conductivity 1
  = 0.93 * MoistAir.thermal_conductivity pore_air_prop
  /\ MembraneConductivity pore_air_prop polymer_conductivity 0
     = 0.93 * polymer_conductivity.
Proof.
  intros Ha Hp. unfold MembraneConductivity. cbv zeta.
  set (ka := MoistAir.thermal_conductivity pore_air_prop) in *.
  whole_numbers. split; field; lra.
Qed.

Lemma MembraneConductivity_limits_witness :
  MembraneConductivity (MoistAir.Build 0.028) 0.2 1 = 0.93 * 0.028
  /\ MembraneConductivity (MoistAir.Build 0.028) 0.2 0 = 0.93 * 0.2.
Proof.
  apply (MembraneConductivity_limits (MoistAir.Build 0.028) 0.2);
    cbn [MoistAir.thermal_conductivity]; lra.
Defined.

(** ** Channel transfer coefficients *)

Lemma spacer_correlation_increasing (k number ratio h c m1 m2 : R) :
  0 < k -> 0 < h -> 0 < c -> 0 < m1 < m2 ->
  k * (0.22 * Rpower (m1 * c) 0.69 * Rpower number 0.13 * Rpower ratio 0.25) / h
  < k * (0.22 * Rpower (m2 * c) 0.69 * Rpower number 0.13 * Rpower ratio 0.25) / h.
Proof.
  intros Hk Hh Hc [Hm1 Hm12].
  assert (Hre : Rpower (m1 * c) 0.69 < Rpower (m2 * c) 0.69).
  { apply Rlt_Rpower_l; [lra|]. split.
    - now apply Rmult_lt_0_compat.
    - now apply Rmult_lt_compat_r. }
  assert (Hn : 0 < Rpower number 0.13) by (unfold Rpower; apply exp_pos).
  assert (Hr : 0 < Rpower ratio 0.25) by (unfold Rpower; apply exp_pos).
  apply Rmult_lt_compat_r; [now apply Rinv_0_lt_compat|].
  apply Rmult_lt_compat_l; [exact Hk|].
  apply Rmult_lt_compat_r; [exact Hr|].
  apply Rmult_lt_compat_r; [exact Hn|].
  apply Rmult_lt_compat_l; lra.
Qed.

Lemma reynolds_proportional_to_flow (m h w eps mu : R) (n : Z) :
  (0 < n)%Z -> 0 < h -> 0 < w -> 0 < eps -> 0 < mu ->
  m / (IZR n * h * w * eps) * h / mu = m * (/ (IZR n * w * eps * mu))
  /\ 0 < / (IZR n * w * eps * mu).
Proof.
  intros Hn Hh Hw He Hmu.
  assert (HN : 0 < IZR n) by now apply IZR_lt.
  split.
  - field. repeat split; lra.
  - apply Rinv_0_lt_compat. repeat apply Rmult_lt_0_compat; lra.
Qed.

(** C5.  For positive properties, geometry and channel count, both
    [ChannelHeatTransfCoef] and [ChannelMassTransfCoef] are strictly
    increasing in the mass flow rate over positive flow rates. *)
Theorem channel_coefs_increase_with_flow
    (bulk_water_prop wall_water_prop : SaltWaterProperties)
    (channel_height channel_width : R) (number_channels : Z)
    (spacer_porosity : R) (mass_flow_rate mass_flow_rate' : R) :
  0 < SaltWater.dyn_viscosity bulk_water_prop ->
  0 < SaltWater.thermal_conductivity bulk_water_prop ->
  0 < SaltWater.mass_diffusivity bulk_water_prop ->
  0 < SaltWater.prandtl bulk_water_prop ->
  0 < SaltWater.schmidt bulk_water_prop ->
  0 < SaltWater.prandtl wall_water_prop ->
  0 < SaltWater.schmidt wall_water_prop ->
  0 < channel_height -> 0 < channel_width ->
  (0 < number_channels)%Z -> 0 < spacer_porosity ->
  0 < mass_flow_rate < mass_flow_rate' ->
  ChannelHeatTransfCoef bulk_water_prop wall_water_prop mass_flow_rate
    channel_height channel_width number_channels spacer_porosity
  < ChannelHeatTransfCoef bulk_water_prop wall_water_prop mass_flow_rate'
      channel_height channel_width number_channels spacer_porosity
  /\ ChannelMassTransfCoef bulk_water_prop wall_water_prop mass_flow_rate
       channel_height channel_width number_channels spacer_porosity
     < ChannelMassTransfCoef bulk_water_prop wall_water_prop mass_flow_rate'
         channel_height channel_width number_channels spacer_porosity.
Proof.
  intros Hmu Hk HD Hpr Hsc Hprw Hscw Hh Hw Hn He Hm.
  unfold ChannelHeatTransfCoef, ChannelMassTransfCoef, PetscPowReal. cbv zeta.
  destruct (reynolds_proportional_to_flow mass_flow_rate channel_height
              channel_width spacer_porosity
              (SaltWater.dyn_viscosity bulk_water_prop) number_channels
              Hn Hh Hw He Hmu) as [-> Hc].
  destruct (reynolds_proportional_to_flow mass_flow_rate' channel_height
              channel_width spacer_porosity
              (SaltWater.dyn_viscosity bulk_water_prop) number_channels
              Hn Hh Hw He Hmu) as [-> _].
  split; now apply spacer_correlation_increasing.
Qed.

Lemma channel_coefs_increase_with_flow_witness :
  ChannelHeatTransfCoef (SaltWater.Build 1.0e-3 0.6 7.0 1.5e-9 600)
    (SaltWater.Build 0.8e-3 0.62 5.5 1.8e-9 450) 0.05 2e-3 0.1 4 0.8
  < ChannelHeatTransfCoef (SaltWater.Build 1.0e-3 0.6 7.0 1.5e-9 600)
      (SaltWater.Build 0.8e-3 0.62 5.5 1.8e-9 450) 0.1 2e-3 0.1 4 0.8
  /\ ChannelMassTransfCoef (SaltWater.Build 1.0e-3 0.6 7.0 1.5e-9 600)
       (SaltWater.Build 0.8e-3 0.62 5.5 1.8e-9 450) 0.05 2e-3 0.1 4 0.8
     < ChannelMassTransfCoef (SaltWater.Build 1.0e-3 0.6 7.0 1.5e-9 600)
         (SaltWater.Build 0.8e-3 0.62 5.5 1.8e-9 450) 0.1 2e-3 0.1 4 0.8.
Proof.
  apply (channel_coefs_increase_with_flow
           (SaltWater.Build 1.0e-3 0.6 7.0 1.5e-9 600)
           (SaltWater.Build 0.8e-3 0.62 5.5 1.8e-9 450)
           2e-3 0.1 4 0.8 0.05 0.1);
    cbn [SaltWater.dyn_viscosity SaltWater.thermal_conductivity
         SaltWater.mass_diffusivity SaltWater.prandtl SaltWater.schmidt];
    try lra; lia.
Defined.

(** C10.  [ChannelHeatTransfCoef] reads only the [prandtl] field of the
    wall-side snapshot and [ChannelMassTransfCoef] only its [schmidt] field:
    two wall snapshots that agree on that field give the same result, all
    other arguments being equal. *)
Theorem channel_coefs_read_one_wall_field
    (bulk_water_prop wall_water_prop wall_water_prop' : SaltWaterProperties)
    (mass_flow_rate channel_height channel_width : R) (number_channels : Z)
    (spacer_porosity : R) :
  (SaltWater.prandtl wall_water_prop = SaltWater.prandtl wall_water_prop' ->
   ChannelHeatTransfCoef bulk_water_prop wall_water_prop mass_flow_rate
     channel_height channel_width number_channels spacer_porosity
   = ChannelHeatTransfCoef bulk_water_prop wall_water_prop' mass_flow_rate
       channel_height channel_width number_channels spacer_porosity)
  /\ (SaltWater.schmidt wall_water_prop = SaltWater.schmidt wall_water_prop' ->
      ChannelMassTransfCoef bulk_water_prop wall_water_prop mass_flow_rate
        channel_height channel_width number_channels spacer_porosity
      = ChannelMassTransfCoef bulk_water_prop wall_water_prop' mass_flow_rate
          channel_height channel_width number_channels spacer_porosity).
Proof.
  unfold ChannelHeatTransfCoef, ChannelMassTransfCoef.
  split; intros ->; reflexivity.
Qed.

Lemma channel_coefs_read_one_wall_field_witness :
  ChannelHeatTransfCoef (SaltWater.Build 1.0e-3 0.6 7.0 1.5e-9 600)
    (SaltWater.Build 0.8e-3 0.62 5.5 1.8e-9 450) 0.05 2e-3 0.1 4 0.8
  = ChannelHeatTransfCoef (SaltWater.Build 1.0e-3 0.6 7.0 1.5e-9 600)
      (SaltWater.Build 0.3e-3 0.2 5.5 9e-9 450) 0.05 2e-3 0.1 4 0.8
  /\ ChannelMassTransfCoef (SaltWater.Build 1.0e-3 0.6 7.0 1.5e-9 600)
       (SaltWater.Build 0.8e-3 0.62 5.5 1.8e-9 450) 0.05 2e-3 0.1 4 0.8
     = ChannelMassTransfCoef (SaltWater.Build 1.0e-3 0.6 7.0 1.5e-9 600)
         (SaltWater.Build 0.3e-3 0.2 5.5 9e-9 450) 0.05 2e-3 0.1 4 0.8.
Proof.
  destruct (channel_coefs_read_one_wall_field
              (SaltWater.Build 1.0e-3 0.6 7.0 1.5e-9 600)
              (SaltWater.Build 0.8e-3 0.62 5.5 1.8e-9 450)
              (SaltWater.Build 0.3e-3 0.2 5.5 9e-9 450)
              0.05 2e-3 0.1 4 0.8) as [Hheat Hmass].
  split; [apply Hheat | apply Hmass]; reflexivity.
Defined.

(** ** Knudsen diffusivity *)

Section KnudsenFacts.

Context {entrydata : EntryData}.

(** C6.  For positive constants, porosity, tortuosity, pore diameter and
    absolute temperature, [KnudsenDiffusion] is strictly increasing in the
    temperature, to whose square root it is proportional, strictly increasing
    in the pore diameter and strictly decreasing in the tortuosity. *)
Theorem KnudsenDiffusion_monotone
    (membrane_porosity membrane_tortuosity pore_diameter temperature : R) :
  0 < gas_constant -> 0 < water_molar_mass ->
  0 < membrane_porosity -> 0 < membrane_tortuosity ->
  0 < pore_diameter -> 0 < temperature ->
  (forall temperature' : R,
      temperature < temperature' ->
      KnudsenDiffusion membrane_porosity membrane_tortuosity pore_diameter
        temperature
      < KnudsenDiffusion membrane_porosity membrane_tortuosity pore_diameter
          temperature')
  /\ KnudsenDiffusion membrane_porosity membrane_tortuosity pore_diameter
       temperature
     = KnudsenDiffusion membrane_porosity membrane_tortuosity pore_diameter 1
       * sqrt temperature
  /\ (forall pore_diameter' : R,
         pore_diameter < pore_diameter' ->
         KnudsenDiffusion membrane_porosity membrane_tortuosity pore_diameter
           temperature
         < KnudsenDiffusion membrane_porosity membrane_tortuosity pore_diameter'
             temperature)
  /\ (forall membrane_tortuosity' : R,
         membrane_tortuosity < membrane_tortuosity' ->
         KnudsenDiffusion membrane_porosity membrane_tortuosity' pore_diameter
           temperature
         < KnudsenDiffusion membrane_porosity membrane_tortuosity pore_diameter
             temperature).
Proof.
  intros HR HM He Ht Hd HT.
  pose proof PI_RGT_0 as Hpi.
  assert (Hc : 0 < 8 * gas_constant / (PI * water_molar_mass)).
  { apply Rdiv_lt_0_compat; [|apply Rmult_lt_0_compat]; lra. }
  assert (Harg : forall T : R,
             8 * gas_constant * T / (PI * water_molar_mass)
             = 8 * gas_constant / (PI * water_molar_mass) * T).
  { intros T. field. split; lra. }
  assert (Hroot : 0 < sqrt (8 * gas_constant * temperature
                            / (PI * water_molar_mass))).
  { apply sqrt_lt_R0. rewrite Harg. now apply Rmult_lt_0_compat. }
  assert (Hratio : 0 < membrane_porosity / membrane_tortuosity)
    by now apply Rdiv_lt_0_compat.
  unfold KnudsenDiffusion, PetscSqrtReal, M_PI. cbv zeta. whole_numbers.
  repeat split.
  - intros T' HT'.
    apply Rmult_lt_compat_l.
    + apply Rmult_lt_0_compat; lra.
    + apply sqrt_lt_1_alt. rewrite !Harg. split.
      * apply Rmult_le_pos; lra.
      * now apply Rmult_lt_compat_l.
  - rewrite (Harg temperature), (Harg 1), Rmult_1_r.
    rewrite sqrt_mult by lra. ring.
  - intros d' Hd'.
    apply Rmult_lt_compat_r; [exact Hroot|].
    apply Rmult_lt_compat_r; [exact Hratio|]. lra.
  - intros tau' Htau'.
    apply Rmult_lt_compat_r; [exact Hroot|].
    apply Rmult_lt_compat_l; [lra|].
    apply Rmult_lt_compat_l; [exact He|].
    apply Rinv_lt_contravar; [apply Rmult_lt_0_compat; lra | exact Htau'].
Qed.

End KnudsenFacts.

Lemma KnudsenDiffusion_monotone_witness :
  KnudsenDiffusion (entrydata := SI_entrydata) 0.8 1.5 0.2e-6 333.15
  < KnudsenDiffusion (entrydata := SI_entrydata) 0.8 1.5 0.2e-6 343.15
  /\ KnudsenDiffusion (entrydata := SI_entrydata) 0.8 1.5 0.2e-6 333.15
     < KnudsenDiffusion (entrydata := SI_entrydata) 0.8 1.5 0.4e-6 333.15
  /\ KnudsenDiffusion (entrydata := SI_entrydata) 0.8 2 0.2e-6 333.15
     < KnudsenDiffusion (entrydata := SI_entrydata) 0.8 1.5 0.2e-6 333.15.
Proof.
  destruct (KnudsenDiffusion_monotone (entrydata := SI_entrydata)
              0.8 1.5 0.2e-6 333.15)
    as (HT & _ & Hd & Htau);
    try (cbn [gas_constant water_molar_mass SI_entrydata]; lra).
  repeat split; [apply HT | apply Hd | apply Htau]; lra.
Defined.

(** ** Wall concentration at zero flux *)

Section ConcentrationFacts.

Context {properties : PropertyProvider}.

(** C3, on the code.  With no flux and a fresh-water density between 0 and
    the NaCl density 2160, [SaltWaterConcentration] does not return the input
    salinity: for every salinity in (0,1) it returns
    2160 s / (2160 - 0.999 s (2160 - density)), which is strictly larger
    than s.  The back-conversion scales the concentration by 1000 in its
    numerator and not in its denominator. *)
Theorem SaltWaterConcentration_zero_flux_exceeds_salinity
    (mass_transfer_coef temperature salinity : R) :
  0 < SaltWaterDensity temperature 0 < 2160 ->
  0 < salinity < 1 ->
  SaltWaterConcentration mass_transfer_coef temperature salinity 0
  = 2160 * salinity
    / (2160 - 0.999 * salinity * (2160 - SaltWaterDensity temperature 0))
  /\ salinity < SaltWaterConcentration mass_transfer_coef temperature salinity 0.
Proof.
  intros [Hrho Hrho'] [Hs Hs'].
  assert (Hmix : 0 < salinity * (2160 - SaltWaterDensity temperature 0))
    by (apply Rmult_lt_0_compat; lra).
  assert (Hmix' : salinity * (2160 - SaltWaterDensity temperature 0)
                  < 2160 - SaltWaterDensity temperature 0) by nra.
  assert (Hval : SaltWaterConcentration mass_transfer_coef temperature salinity 0
                 = 2160 * salinity
                   / (2160 - 0.999 * salinity
                             * (2160 - SaltWaterDensity temperature 0))).
  { unfold SaltWaterConcentration, PetscExpReal. cbv zeta. whole_numbers.
    set (rho := SaltWaterDensity temperature 0) in *.
    replace (0 / (rho * mass_transfer_coef)) with 0 by (unfold Rdiv; ring).
    rewrite exp_0.
    set (M := 58.44e-3). assert (HM : 0 < M) by (unfold M; lra). clearbody M.
    replace 0.999 with (999 / 1000) by lra.
    assert (Hfresh : 0 < (1 - salinity) * 2160 + salinity * rho) by nra.
    assert (Hback : 0 < rho * 2160 * (((1 - salinity) * 2160 + salinity * rho) * 1000)
                        + salinity * (rho * 2160) * (2160 - rho)).
    { apply Rplus_lt_0_compat; repeat apply Rmult_lt_0_compat; lra. }
    field. repeat split; lra. }
  split; [exact Hval|].
  rewrite Hval.
  apply Rmult_lt_reg_r
    with (2160 - 0.999 * salinity * (2160 - SaltWaterDensity temperature 0));
    [lra|].
  replace (2160 * salinity
           / (2160 - 0.999 * salinity * (2160 - SaltWaterDensity temperature 0))
           * (2160 - 0.999 * salinity * (2160 - SaltWaterDensity temperature 0)))
    with (2160 * salinity) by (field; lra).
  assert (0 < salinity * (salinity * (2160 - SaltWaterDensity temperature 0)))
    by (apply Rmult_lt_0_compat; lra).
  nra.
Qed.

End ConcentrationFacts.

Lemma SaltWaterConcentration_zero_flux_exceeds_salinity_witness :
  SaltWaterConcentration (properties := fresh_water_provider) 1e-5 25 0.035 0
  = 2160 * 0.035 / (2160 - 0.999 * 0.035 * (2160 - 1000))
  /\ 0.035 < SaltWaterConcentration (properties := fresh_water_provider)
               1e-5 25 0.035 0.
Proof.
  apply (SaltWaterConcentration_zero_flux_exceeds_salinity
           (properties := fresh_water_provider) 1e-5 25 0.035);
    cbn [SaltWaterDensity fresh_water_provider]; lra.
Defined.

(** ** Calls and the caller's storage *)

Lemma preserves_memory_ret {A : Type} (a : A) :
  Machine.preserves_memory (Machine.ret a).
Proof.
  intros m m' a' H. unfold Machine.ret in H. now inversion H.
Qed.

Lemma preserves_memory_bind {A B : Type}
    (c : Machine.Exec A) (k : A -> Machine.Exec B) :
  Machine.preserves_memory c ->
  (forall a : A, Machine.preserves_memory (k a)) ->
  Machine.preserves_memory (Machine.bind c k).
Proof.
  intros Hc Hk m m' b H. unfold Machine.bind in H.
  destruct (c m) as [[a m1]|] eqn:Hcm; [|discriminate].
  apply Hc in Hcm. subst m1. now apply Hk in H.
Qed.

Lemma preserves_memory_read_salt_water (p : Machine.address) :
  Machine.preserves_memory (Machine.read_salt_water p).
Proof.
  intros m m' s H. unfold Machine.read_salt_water in H.
  destruct (Machine.salt_water_at m p); [now inversion H | discriminate].
Qed.

Lemma preserves_memory_read_moist_air (p : Machine.address) :
  Machine.preserves_memory (Machine.read_moist_air p).
Proof.
  intros m m' s H. unfold Machine.read_moist_air in H.
  destruct (Machine.moist_air_at m p); [now inversion H | discriminate].
Qed.

(** The predicate does separate reads from writes: a store to the brine
    snapshot of [sample_memory] is not memory preserving. *)
Lemma store_salt_water_changes_memory :
  ~ Machine.preserves_memory
      (Machine.store_salt_water 0%nat (SaltWater.Build 0 0 0 0 0)).
Proof.
  intros H.
  specialize (H Machine.sample_memory _ tt eq_refl).
  apply (f_equal (fun m => Machine.salt_water_at m 0%nat)) in H.
  cbn in H. injection H as H _. lra.
Qed.

Create HintDb frame.

#[local] Hint Resolve preserves_memory_ret preserves_memory_bind
  preserves_memory_read_salt_water preserves_memory_read_moist_air : frame.

Ltac run_frame :=
  cbv [Machine.MassFlux_body Machine.MassFlux_entry Machine.assign
       String.eqb Ascii.eqb Bool.eqb andb].

Section CallFacts.

Context {entrydata : EntryData} {properties : PropertyProvider}.

Lemma MassFlux_body_returns
    (membrane_porosity membrane_tortuosity membrane_thickness pore_diameter
     gap_spacer_porosity air_gap_thickness temperature_membrane temperature_gap
     feed_membrane_pressure film_boundary_pressure vacuum_pressure : R) :
  Machine.MassFlux_body
    (Machine.MassFlux_entry membrane_porosity membrane_tortuosity
       membrane_thickness pore_diameter gap_spacer_porosity air_gap_thickness
       temperature_membrane temperature_gap feed_membrane_pressure
       film_boundary_pressure vacuum_pressure) "mass_flux"
  = MassFlux membrane_porosity membrane_tortuosity membrane_thickness pore_diameter
      gap_spacer_porosity air_gap_thickness temperature_membrane temperature_gap
      feed_membrane_pressure film_boundary_pressure vacuum_pressure.
Proof.
  run_frame. reflexivity.
Qed.

(** C7.  [MassFlux] adds 273.15 to its own copies of the two Celsius
    temperatures, and every diffusivity it evaluates is evaluated at a
    converted temperature.  No call of the module changes the caller's
    storage: each of the seven functions, whenever it returns, returns the
    memory it was started in, with every property struct as it was; the
    by-value functions always return, and the three that take property structs
    return whenever their addresses hold structs. *)
Theorem calls_keep_caller_storage (m : Machine.Memory) :
  (forall membrane_porosity membrane_tortuosity membrane_thickness pore_diameter
          gap_spacer_porosity air_gap_thickness temperature_membrane
          temperature_gap feed_membrane_pressure film_boundary_pressure
          vacuum_pressure : R,
      let entry :=
        Machine.MassFlux_entry membrane_porosity membrane_tortuosity
          membrane_thickness pore_diameter gap_spacer_porosity air_gap_thickness
          temperature_membrane temperature_gap feed_membrane_pressure
          film_boundary_pressure vacuum_pressure in
      let final := Machine.MassFlux_body entry in
      entry "temperature_membrane" = temperature_membrane
      /\ entry "temperature_gap" = temperature_gap
      /\ final "temperature_membrane" = temperature_membrane + 273.15
      /\ final "temperature_gap" = temperature_gap + 273.15
      /\ final "knudsen_diffusivity"
         = KnudsenDiffusion membrane_porosity membrane_tortuosity pore_diameter
             (temperature_membrane + 273.15)
      /\ final "effective_diffusivity"
         = MolecularDiffusion membrane_porosity membrane_tortuosity
             (temperature_membrane + 273.15)
           * KnudsenDiffusion membrane_porosity membrane_tortuosity pore_diameter
               (temperature_membrane + 273.15)
           / (MolecularDiffusion membrane_porosity membrane_tortuosity
                (temperature_membrane + 273.15)
              + (atm_pressure + vacuum_pressure)
                * KnudsenDiffusion membrane_porosity membrane_tortuosity
                    pore_diameter (temperature_membrane + 273.15))
      /\ final "molecular_diffusivity"
         = MolecularDiffusion 1.0 1.0 (temperature_gap + 273.15)
      /\ Machine.call_MassFlux membrane_porosity membrane_tortuosity
           membrane_thickness pore_diameter gap_spacer_porosity air_gap_thickness
           temperature_membrane temperature_gap feed_membrane_pressure
           film_boundary_pressure vacuum_pressure m
         = Some (MassFlux membrane_porosity membrane_tortuosity
                   membrane_thickness pore_diameter gap_spacer_porosity
                   air_gap_thickness temperature_membrane temperature_gap
                   feed_membrane_pressure film_boundary_pressure vacuum_pressure,
                 m))
  /\ (forall (pore_air_prop : Machine.address) (air : MoistAirProperties)
             (polymer_conductivity membrane_porosity : R),
         Machine.moist_air_at m pore_air_prop = Some air ->
         Machine.call_MembraneConductivity pore_air_prop polymer_conductivity
           membrane_porosity m
         = Some (MembraneConductivity air polymer_conductivity membrane_porosity,
                 m))
  /\ (forall (bulk_water_prop wall_water_prop : Machine.address)
             (bulk wall : SaltWaterProperties)
             (mass_flow_rate channel_height channel_width : R)
             (number_channels : Z) (spacer_porosity : R),
         Machine.salt_water_at m bulk_water_prop = Some bulk ->
         Machine.salt_water_at m wall_water_prop = Some wall ->
         Machine.call_ChannelHeatTransfCoef bulk_water_prop wall_water_prop
           mass_flow_rate channel_height channel_width number_channels
           spacer_porosity m
         = Some (ChannelHeatTransfCoef bulk wall mass_flow_rate channel_height
                   channel_width number_channels spacer_porosity, m)
         /\ Machine.call_ChannelMassTransfCoef bulk_water_prop wall_water_prop
              mass_flow_rate channel_height channel_width number_channels
              spacer_porosity m
            = Some (ChannelMassTransfCoef bulk wall mass_flow_rate channel_height
                      channel_width number_channels spacer_porosity, m))
  /\ (forall a b c d : R,
         Machine.call_MolecularDiffusion a b c m
         = Some (MolecularDiffusion a b c, m)
         /\ Machine.call_KnudsenDiffusion a b c d m
            = Some (KnudsenDiffusion a b c d, m)
         /\ Machine.call_SaltWaterConcentration a b c d m
            = Some (SaltWaterConcentration a b c d, m))
  /\ (forall (p q : Machine.address) (a b c d e f g h i j k : R) (n : Z),
         Machine.preserves_memory (Machine.call_MembraneConductivity p a b)
         /\ Machine.preserves_memory
              (Machine.call_ChannelHeatTransfCoef p q a b c n d)
         /\ Machine.preserves_memory
              (Machine.call_ChannelMassTransfCoef p q a b c n d)
         /\ Machine.preserves_memory (Machine.call_MolecularDiffusion a b c)
         /\ Machine.preserves_memory (Machine.call_KnudsenDiffusion a b c d)
         /\ Machine.preserves_memory
              (Machine.call_SaltWaterConcentration a b c d)
         /\ Machine.preserves_memory
              (Machine.call_MassFlux a b c d e f g h i j k)).
Proof.
  split; [|split; [|split; [|split]]].
  - intros. subst entry final.
    unfold Machine.call_MassFlux, Machine.ret.
    rewrite MassFlux_body_returns.
    repeat split; run_frame; reflexivity.
  - intros p air kp eps Hp.
    unfold Machine.call_MembraneConductivity, Machine.bind,
      Machine.read_moist_air, Machine.ret.
    now rewrite Hp.
  - intros pb pw bulk wall mfr h w n eps Hb Hw.
    unfold Machine.call_ChannelHeatTransfCoef, Machine.call_ChannelMassTransfCoef,
      Machine.bind, Machine.read_salt_water, Machine.ret.
    now rewrite Hb, Hw.
  - intros. repeat split.
  - intros.
    unfold Machine.call_MembraneConductivity, Machine.call_ChannelHeatTransfCoef,
      Machine.call_ChannelMassTransfCoef, Machine.call_MolecularDiffusion,
      Machine.call_KnudsenDiffusion, Machine.call_SaltWaterConcentration,
      Machine.call_MassFlux.
    repeat split; auto 8 with frame.
Qed.

End CallFacts.

Lemma calls_keep_caller_storage_witness :
  Machine.call_MembraneConductivity 1%nat 0.2 0.8 Machine.sample_memory
  = Some (MembraneConductivity (MoistAir.Build 0.028) 0.2 0.8,
          Machine.sample_memory)
  /\ Machine.call_ChannelHeatTransfCoef 0%nat 0%nat 0.05 2e-3 0.1 4 0.8
       Machine.sample_memory
     = Some (ChannelHeatTransfCoef (SaltWater.Build 1.0e-3 0.6 7.0 1.5e-9 600)
               (SaltWater.Build 1.0e-3 0.6 7.0 1.5e-9 600) 0.05 2e-3 0.1 4 0.8,
             Machine.sample_memory).
Proof.
  destruct (calls_keep_caller_storage (entrydata := SI_entrydata)
              (properties := fresh_water_provider) Machine.sample_memory)
    as (_ & Hmembrane & Hchannel & _).
  split.
  - apply Hmembrane. reflexivity.
  - apply (Hchannel 0%nat 0%nat); reflexivity.
Defined.

(** ** Invalid inputs in binary64 arithmetic *)

#[local] Set Warnings "-inexact-float".

Section SpecialValues.

Local Open Scope float_scope.

Lemma is_special_spec (x : float) :
  IEEE.is_special x = true
  <-> Prim2SF x = S754_nan \/ exists s : bool, Prim2SF x = S754_infinity s.
Proof.
  unfold IEEE.is_special. rewrite classify_spec.
  unfold SF64classify, SFclassify.
  destruct (Prim2SF x) as [s | s | | s m e].
  - destruct s; split; try discriminate; intros [H | [s' H]]; discriminate.
  - destruct s; split; eauto.
  - split; eauto.
  - destruct s; destruct (Z.eqb _ _); split; try discriminate;
      intros [H | [s' H]]; discriminate.
Qed.

Lemma is_zero_spec (x : float) :
  IEEE.is_zero x = true <-> exists s : bool, Prim2SF x = S754_zero s.
Proof.
  unfold IEEE.is_zero. rewrite classify_spec.
  unfold SF64classify, SFclassify.
  destruct (Prim2SF x) as [s | s | | s m e].
  - destruct s; split; eauto.
  - destruct s; split; try discriminate; intros [s' H]; discriminate.
  - split; try discriminate; intros [s' H]; discriminate.
  - destruct s; destruct (Z.eqb _ _); split; try discriminate;
      intros [s' H]; discriminate.
Qed.

Lemma is_nan_spec (x : float) : classify x = NaN <-> Prim2SF x = S754_nan.
Proof.
  rewrite classify_spec. unfold SF64classify, SFclassify.
  destruct (Prim2SF x) as [s | s | | s m e].
  - destruct s; split; discriminate.
  - destruct s; split; discriminate.
  - split; reflexivity.
  - destruct s; destruct (Z.eqb _ _); split; discriminate.
Qed.

Lemma nan_is_special (x : float) : classify x = NaN -> IEEE.is_special x = true.
Proof.
  intros H. unfold IEEE.is_special. now rewrite H.
Qed.

(** NaN and the infinities absorb a product, a sum and a dividend. *)

Lemma mul_special_l (x y : float) :
  IEEE.is_special x = true -> IEEE.is_special (x * y) = true.
Proof.
  rewrite !is_special_spec, mul_spec. unfold SF64mul, SFmul.
  intros [-> | [s ->]]; destruct (Prim2SF y); eauto.
Qed.

Lemma mul_special_r (x y : float) :
  IEEE.is_special y = true -> IEEE.is_special (x * y) = true.
Proof.
  rewrite !is_special_spec, mul_spec. unfold SF64mul, SFmul.
  intros [-> | [s ->]]; destruct (Prim2SF x); eauto.
Qed.

Lemma add_special_r (x y : float) :
  IEEE.is_special y = true -> IEEE.is_special (x + y) = true.
Proof.
  rewrite !is_special_spec, add_spec. unfold SF64add, SFadd.
  intros [-> | [s ->]]; destruct (Prim2SF x) as [sx | sx | | sx mx ex]; eauto;
    destruct sx, s; eauto.
Qed.

Lemma div_special_l (x y : float) :
  IEEE.is_special x = true -> IEEE.is_special (x / y) = true.
Proof.
  rewrite !is_special_spec, div_spec. unfold SF64div, SFdiv.
  intros [-> | [s ->]]; destruct (Prim2SF y); eauto.
Qed.

(** A zero divisor, alone or as the last factor of a product, gives NaN or
    an infinity whatever the dividend and the other factors are. *)

Lemma div_zero (x y : float) :
  IEEE.is_zero y = true -> IEEE.is_special (x / y) = true.
Proof.
  rewrite is_zero_spec, is_special_spec, div_spec. unfold SF64div, SFdiv.
  intros [s ->]; destruct (Prim2SF x); eauto.
Qed.

Lemma div_zero_product (x a y : float) :
  IEEE.is_zero y = true -> IEEE.is_special (x / (a * y)) = true.
Proof.
  rewrite is_zero_spec, is_special_spec, div_spec, mul_spec.
  unfold SF64div, SFdiv, SF64mul, SFmul.
  intros [s ->]; destruct (Prim2SF a); destruct (Prim2SF x); eauto.
Qed.

(** NaN absorbs a product and a dividend as NaN. *)

Lemma mul_nan_l (x y : float) : classify x = NaN -> classify (x * y) = NaN.
Proof.
  rewrite !is_nan_spec, mul_spec. unfold SF64mul, SFmul.
  intros ->; reflexivity.
Qed.

Lemma mul_nan_r (x y : float) : classify y = NaN -> classify (x * y) = NaN.
Proof.
  rewrite !is_nan_spec, mul_spec. unfold SF64mul, SFmul.
  intros ->; destruct (Prim2SF x); reflexivity.
Qed.

Lemma div_nan_l (x y : float) : classify x = NaN -> classify (x / y) = NaN.
Proof.
  rewrite !is_nan_spec, div_spec. unfold SF64div, SFdiv.
  intros ->; reflexivity.
Qed.

Lemma one_plus_zero (x : float) : IEEE.is_zero x = true -> 1 + x = 1.
Proof.
  rewrite is_zero_spec. intros [s H].
  apply (f_equal SF2Prim) in H. rewrite SF2Prim_Prim2SF in H. subst x.
  destruct s; vm_compute; reflexivity.
Qed.

Lemma sample_libm_AnnexF : IEEE.AnnexF IEEE.sample_libm.
Proof.
  split.
  - intros x y Hx _. cbn. rewrite Hx. now apply mul_special_l.
  - intros x Hneg Hx. cbn. rewrite Hx, Hneg. vm_compute. reflexivity.
  - intros x Hx. cbn. now apply one_plus_zero.
Qed.

End SpecialValues.

Section InvalidInputs.

Local Open Scope float_scope.

Context {libm : IEEE.Libm} {entrydata : IEEE.EntryData}
        {properties : IEEE.PropertyProvider}.

Hypothesis annex_f : IEEE.AnnexF libm.

Lemma pow_069_special (x : float) :
  IEEE.is_special x = true -> IEEE.is_special (IEEE.PetscPowReal x 0.69) = true.
Proof.
  intros Hx. apply (IEEE.pow_special_base libm annex_f); [exact Hx|].
  vm_compute. reflexivity.
Qed.

(** Both channel correlations have the shape
    [k * (0.22 * pow re 0.69 * pow n 0.13 * pow r 0.25) / h]. *)
Lemma spacer_correlation_special (k re number ratio h : float) :
  IEEE.is_special re = true ->
  IEEE.is_special
    (k * (0.22 * IEEE.PetscPowReal re 0.69 * IEEE.PetscPowReal number 0.13
          * IEEE.PetscPowReal ratio 0.25) / h) = true.
Proof.
  intros Hre.
  apply div_special_l, mul_special_r, mul_special_l, mul_special_l,
    mul_special_r.
  now apply pow_069_special.
Qed.

Lemma spacer_correlation_nan (k re number ratio h : float) :
  (re <? 0) = true -> IEEE.is_special re = false ->
  classify
    (k * (0.22 * IEEE.PetscPowReal re 0.69 * IEEE.PetscPowReal number 0.13
          * IEEE.PetscPowReal ratio 0.25) / h) = NaN.
Proof.
  intros Hneg Hre.
  apply div_nan_l, mul_nan_r, mul_nan_l, mul_nan_l, mul_nan_r.
  now apply (IEEE.pow_negative_base libm annex_f).
Qed.

Lemma reynolds_special (m n h w eps mu : float) :
  IEEE.is_zero mu = true \/ IEEE.is_zero eps = true ->
  IEEE.is_special (m / (n * h * w * eps) * h / mu) = true.
Proof.
  intros [Hmu | Heps].
  - now apply div_zero.
  - apply div_special_l, mul_special_l. now apply div_zero_product.
Qed.

Lemma channel_coefs_special
    (bulk_water_prop wall_water_prop : IEEE.SaltWater.t)
    (mass_flow_rate channel_height channel_width : float)
    (number_channels : Z) (spacer_porosity : float) :
  IEEE.is_zero (IEEE.SaltWater.dyn_viscosity bulk_water_prop) = true
  \/ IEEE.is_zero spacer_porosity = true ->
  IEEE.is_special
    (IEEE.ChannelHeatTransfCoef bulk_water_prop wall_water_prop mass_flow_rate
       channel_height channel_width number_channels spacer_porosity) = true
  /\ IEEE.is_special
       (IEEE.ChannelMassTransfCoef bulk_water_prop wall_water_prop
          mass_flow_rate channel_height channel_width number_channels
          spacer_porosity) = true.
Proof.
  intros H. unfold IEEE.ChannelHeatTransfCoef, IEEE.ChannelMassTransfCoef.
  cbv zeta.
  split; apply spacer_correlation_special; now apply reynolds_special.
Qed.

Lemma MembraneConductivity_special
    (pore_air_prop : IEEE.MoistAir.t)
    (polymer_conductivity membrane_porosity : float) :
  IEEE.is_zero
    (polymer_conductivity
     + 2.0 * IEEE.MoistAir.thermal_conductivity pore_air_prop) = true ->
  IEEE.is_special
    (IEEE.MembraneConductivity pore_air_prop polymer_conductivity
       membrane_porosity) = true.
Proof.
  intros H. unfold IEEE.MembraneConductivity. cbv zeta.
  apply div_special_l, mul_special_r, add_special_r, mul_special_l,
    mul_special_r.
  now apply div_zero.
Qed.

Lemma diffusivities_special
    (membrane_porosity membrane_tortuosity pore_diameter temperature : float) :
  IEEE.is_zero membrane_tortuosity = true ->
  IEEE.is_special
    (IEEE.MolecularDiffusion membrane_porosity membrane_tortuosity temperature)
  = true
  /\ IEEE.is_special
       (IEEE.KnudsenDiffusion membrane_porosity membrane_tortuosity
          pore_diameter temperature) = true.
Proof.
  intros H. unfold IEEE.MolecularDiffusion, IEEE.KnudsenDiffusion. cbv zeta.
  split.
  - apply mul_special_l. now apply div_zero.
  - apply mul_special_l, mul_special_r. now apply div_zero.
Qed.

Lemma MassFlux_special
    (membrane_porosity membrane_tortuosity membrane_thickness pore_diameter
     gap_spacer_porosity air_gap_thickness temperature_membrane temperature_gap
     feed_membrane_pressure film_boundary_pressure vacuum_pressure : float) :
  IEEE.is_zero membrane_thickness = true
  \/ IEEE.is_zero air_gap_thickness = true ->
  IEEE.is_special
    (IEEE.MassFlux membrane_porosity membrane_tortuosity membrane_thickness
       pore_diameter gap_spacer_porosity air_gap_thickness temperature_membrane
       temperature_gap feed_membrane_pressure film_boundary_pressure
       vacuum_pressure) = true.
Proof.
  intros [H | H]; unfold IEEE.MassFlux; cbv zeta;
    apply mul_special_l, div_special_l.
  - apply mul_special_l. now apply div_zero_product.
  - apply mul_special_r. now apply div_zero_product.
Qed.

End InvalidInputs.





(** * Further properties of the correlations *)

(** ** Inequalities against a quotient *)

Lemma quotient_le_upper (a b c : R) : 0 < c -> a <= b * c -> a / c <= b.
Proof.
  intros Hc H. apply Rmult_le_reg_r with c; [exact Hc|].
  replace (a / c * c) with a by (field; lra). exact H.
Qed.

Lemma quotient_le_lower (a b c : R) : 0 < c -> b * c <= a -> b <= a / c.
Proof.
  intros Hc H. apply Rmult_le_reg_r with c; [exact Hc|].
  replace (a / c * c) with a by (field; lra). exact H.
Qed.

Lemma quotient_lt_upper (a b c : R) : 0 < c -> a < b * c -> a / c < b.
Proof.
  intros Hc H. apply Rmult_lt_reg_r with c; [exact Hc|].
  replace (a / c * c) with a by (field; lra). exact H.
Qed.

Lemma quotient_lt_lower (a b c : R) : 0 < c -> b * c < a -> b < a / c.
Proof.
  intros Hc H. apply Rmult_lt_reg_r with c; [exact Hc|].
  replace (a / c * c) with a by (field; lra). exact H.
Qed.

(** ** Molecular diffusivity *)

Lemma Rpower_one_base (y : R) : Rpower 1 y = 1.
Proof.
  unfold Rpower. rewrite ln_1, Rmult_0_r. apply exp_0.
Qed.

(** X1.  For positive porosity and tortuosity, [MolecularDiffusion] is the
    free-air value [MolecularDiffusion 1 1 T] scaled by porosity/tortuosity;
    it is positive, and strictly increasing in a positive absolute
    temperature. *)
Theorem MolecularDiffusion_scaling_and_growth
    (membrane_porosity membrane_tortuosity temperature temperature' : R) :
  0 < membrane_porosity -> 0 < membrane_tortuosity ->
  0 < temperature < temperature' ->
  MolecularDiffusion membrane_porosity membrane_tortuosity temperature
  = membrane_porosity / membrane_tortuosity * MolecularDiffusion 1 1 temperature
  /\ 0 < MolecularDiffusion membrane_porosity membrane_tortuosity temperature
  /\ MolecularDiffusion membrane_porosity membrane_tortuosity temperature
     < MolecularDiffusion membrane_porosity membrane_tortuosity temperature'.
Proof.
  intros He Ht [HT HT'].
  assert (Hr : 0 < membrane_porosity / membrane_tortuosity)
    by now apply Rdiv_lt_0_compat.
  rewrite !MolecularDiffusion_design.
  unfold design_molecular_diffusivity.
  repeat split.
  - field. lra.
  - apply Rmult_lt_0_compat; [apply Rmult_lt_0_compat; lra|].
    unfold Rpower. apply exp_pos.
  - apply Rmult_lt_compat_l; [apply Rmult_lt_0_compat; lra|].
    apply Rlt_Rpower_l; lra.
Qed.

Lemma MolecularDiffusion_scaling_and_growth_witness :
  MolecularDiffusion 0.8 1.5 333.15 = 0.8 / 1.5 * MolecularDiffusion 1 1 333.15
  /\ 0 < MolecularDiffusion 0.8 1.5 333.15
  /\ MolecularDiffusion 0.8 1.5 333.15 < MolecularDiffusion 0.8 1.5 343.15.
Proof.
  apply (MolecularDiffusion_scaling_and_growth 0.8 1.5 333.15 343.15); lra.
Defined.

(** ** Membrane conductivity between its two phases *)

(** The Maxwell expression with the fraction [beta] cleared. *)
Lemma MembraneConductivity_cleared
    (pore_air_prop : MoistAirProperties)
    (polymer_conductivity membrane_porosity : R) :
  0 < MoistAir.thermal_conductivity pore_air_prop ->
  0 < polymer_conductivity ->
  0 <= membrane_porosity <= 1 ->
  0 < polymer_conductivity * membrane_porosity
      + MoistAir.thermal_conductivity pore_air_prop * (3 - membrane_porosity)
  /\ MembraneConductivity pore_air_prop polymer_conductivity membrane_porosity
     = 0.93 * MoistAir.thermal_conductivity pore_air_prop
       * (polymer_conductivity * (3 - 2 * membrane_porosity)
          + 2 * MoistAir.thermal_conductivity pore_air_prop * membrane_porosity)
       / (polymer_conductivity * membrane_porosity
          + MoistAir.thermal_conductivity pore_air_prop * (3 - membrane_porosity)).
Proof.
  intros Ha Hp [He He'].
  unfold MembraneConductivity. cbv zeta.
  set (ka := MoistAir.thermal_conductivity pore_air_prop) in *.
  assert (Hden : 0 < polymer_conductivity * membrane_porosity
                     + ka * (3 - membrane_porosity)) by nra.
  split; [exact Hden|].
  whole_numbers. field. split; lra.
Qed.

(** X2.  For positive conductivities with the air the poorer conductor and a
    porosity in [0,1], [MembraneConductivity] lies between 0.93 times the air
    conductivity and 0.93 times the polymer conductivity. *)
Theorem MembraneConductivity_between_phases
    (pore_air_prop : MoistAirProperties)
    (polymer_conductivity membrane_porosity : R) :
  0 < MoistAir.thermal_conductivity pore_air_prop <= polymer_conductivity ->
  0 <= membrane_porosity <= 1 ->
  0.93 * MoistAir.thermal_conductivity pore_air_prop
  <= MembraneConductivity pore_air_prop polymer_conductivity membrane_porosity
  <= 0.93 * polymer_conductivity.
Proof.
  intros [Ha Hap] [He He'].
  destruct (MembraneConductivity_cleared pore_air_prop polymer_conductivity
              membrane_porosity) as [Hden ->]; try lra.
  set (ka := MoistAir.thermal_conductivity pore_air_prop) in *.
  set (D := polymer_conductivity * membrane_porosity
            + ka * (3 - membrane_porosity)) in *.
  split.
  - apply quotient_le_lower; [exact Hden|]. unfold D.
    assert (0 <= ka * ((polymer_conductivity - ka) * (1 - membrane_porosity))).
    { apply Rmult_le_pos; [lra|]. apply Rmult_le_pos; lra. }
    nra.
  - apply quotient_le_upper; [exact Hden|]. unfold D.
    assert (0 <= membrane_porosity
                 * ((polymer_conductivity - ka) * (polymer_conductivity + 2 * ka))).
    { apply Rmult_le_pos; [lra|]. apply Rmult_le_pos; lra. }
    nra.
Qed.

Lemma MembraneConductivity_between_phases_witness :
  0.93 * 0.028
  <= MembraneConductivity (MoistAir.Build 0.028) 0.2 0.8
  <= 0.93 * 0.2.
Proof.
  apply (MembraneConductivity_between_phases (MoistAir.Build 0.028) 0.2 0.8);
    cbn [MoistAir.thermal_conductivity]; lra.
Defined.

(** X3.  When the polymer conducts better than the pore air, a more porous
    membrane conducts less: [MembraneConductivity] is strictly decreasing in
    the porosity on [0,1].  When both phases conduct equally the porosity
    does not matter and the result is 0.93 times that conductivity. *)
Theorem MembraneConductivity_decreases_with_porosity
    (pore_air_prop : MoistAirProperties)
    (polymer_conductivity membrane_porosity membrane_porosity' : R) :
  0 < MoistAir.thermal_conductivity pore_air_prop ->
  0 <= membrane_porosity -> membrane_porosity < membrane_porosity' ->
  membrane_porosity' <= 1 ->
  (MoistAir.thermal_conductivity pore_air_prop < polymer_conductivity ->
   MembraneConductivity pore_air_prop polymer_conductivity membrane_porosity'
   < MembraneConductivity pore_air_prop polymer_conductivity membrane_porosity)
  /\ (MoistAir.thermal_conductivity pore_air_prop = polymer_conductivity ->
      MembraneConductivity pore_air_prop polymer_conductivity membrane_porosity
      = 0.93 * polymer_conductivity).
Proof.
  intros Ha He Hlt He'.
  split.
  - intros Hap.
    destruct (MembraneConductivity_cleared pore_air_prop polymer_conductivity
                membrane_porosity) as [Hden ->]; try lra.
    destruct (MembraneConductivity_cleared pore_air_prop polymer_conductivity
                membrane_porosity') as [Hden' ->]; try lra.
    set (ka := MoistAir.thermal_conductivity pore_air_prop) in *.
    set (D := polymer_conductivity * membrane_porosity
              + ka * (3 - membrane_porosity)) in *.
    set (D' := polymer_conductivity * membrane_porosity'
               + ka * (3 - membrane_porosity')) in *.
    apply Rlt_0_minus.
    match goal with
    | |- 0 < ?a * ?n / D - ?a * ?n' / D' =>
        replace (a * n / D - a * n' / D')
          with (a * (3 * (polymer_conductivity - ka)
                     * (polymer_conductivity + 2 * ka)
                     * (membrane_porosity' - membrane_porosity)) / (D * D'))
          by (unfold D, D' in *; field; lra)
    end.
    apply Rdiv_lt_0_compat; [|now apply Rmult_lt_0_compat].
    apply Rmult_lt_0_compat; [apply Rmult_lt_0_compat; lra|].
    apply Rmult_lt_0_compat; [|lra].
    apply Rmult_lt_0_compat; [|lra].
    apply Rmult_lt_0_compat; lra.
  - intros Heq.
    destruct (MembraneConductivity_cleared pore_air_prop polymer_conductivity
                membrane_porosity) as [Hden ->]; try lra.
    rewrite Heq in *. field. lra.
Qed.

Lemma MembraneConductivity_decreases_with_porosity_witness :
  MembraneConductivity (MoistAir.Build 0.028) 0.2 0.8
  < MembraneConductivity (MoistAir.Build 0.028) 0.2 0.7
  /\ MembraneConductivity (MoistAir.Build 0.2) 0.2 0.7 = 0.93 * 0.2.
Proof.
  split.
  - apply (MembraneConductivity_decreases_with_porosity
             (MoistAir.Build 0.028) 0.2 0.7 0.8);
      cbn [MoistAir.thermal_conductivity]; lra.
  - apply (MembraneConductivity_decreases_with_porosity
             (MoistAir.Build 0.2) 0.2 0.7 0.8);
      cbn [MoistAir.thermal_conductivity]; lra.
Defined.

(** ** Channel coefficients: flow, height and wall-side number *)

Lemma spacer_correlation_flow_scaling (k number ratio h c m K : R) :
  0 < c -> 0 < m -> 0 < K ->
  k * (0.22 * Rpower (c * m * K) 0.69 * Rpower number 0.13 * Rpower ratio 0.25) / h
  = Rpower c 0.69
    * (k * (0.22 * Rpower (m * K) 0.69 * Rpower number 0.13 * Rpower ratio 0.25)
       / h).
Proof.
  intros Hc Hm HK.
  rewrite (Rmult_assoc c m K).
  rewrite <- (Rpower_mult_distr c (m * K) 0.69)
    by (try apply Rmult_lt_0_compat; lra).
  unfold Rdiv. ring.
Qed.

Lemma spacer_correlation_wall_decreasing (k re number wall wall' h : R) :
  0 < k -> 0 < h -> 0 < number -> 0 < wall < wall' ->
  k * (0.22 * Rpower re 0.69 * Rpower number 0.13 * Rpower (number / wall') 0.25)
  / h
  < k * (0.22 * Rpower re 0.69 * Rpower number 0.13
         * Rpower (number / wall) 0.25) / h.
Proof.
  intros Hk Hh Hn [Hw Hww].
  assert (Hre : 0 < Rpower re 0.69) by (unfold Rpower; apply exp_pos).
  assert (Hnum : 0 < Rpower number 0.13) by (unfold Rpower; apply exp_pos).
  assert (Hratio : Rpower (number / wall') 0.25 < Rpower (number / wall) 0.25).
  { apply Rlt_Rpower_l; [lra|]. split.
    - apply Rdiv_lt_0_compat; lra.
    - apply Rmult_lt_compat_l; [exact Hn|].
      apply Rinv_lt_contravar; [apply Rmult_lt_0_compat; lra | exact Hww]. }
  apply Rmult_lt_compat_r; [now apply Rinv_0_lt_compat|].
  apply Rmult_lt_compat_l; [exact Hk|].
  apply Rmult_lt_compat_l; [|exact Hratio].
  apply Rmult_lt_0_compat; [apply Rmult_lt_0_compat; lra | exact Hnum].
Qed.

(** X4.  For positive viscosity, geometry and channel count, multiplying a
    positive mass flow rate by c > 0 multiplies both [ChannelHeatTransfCoef]
    and [ChannelMassTransfCoef] by c to the power 0.69. *)
Theorem channel_coefs_flow_power_law
    (bulk_water_prop wall_water_prop : SaltWaterProperties)
    (channel_height channel_width : R) (number_channels : Z)
    (spacer_porosity : R) (mass_flow_rate c : R) :
  0 < SaltWater.dyn_viscosity bulk_water_prop ->
  0 < channel_height -> 0 < channel_width ->
  (0 < number_channels)%Z -> 0 < spacer_porosity ->
  0 < mass_flow_rate -> 0 < c ->
  ChannelHeatTransfCoef bulk_water_prop wall_water_prop (c * mass_flow_rate)
    channel_height channel_width number_channels spacer_porosity
  = Rpower c 0.69
    * ChannelHeatTransfCoef bulk_water_prop wall_water_prop mass_flow_rate
        channel_height channel_width number_channels spacer_porosity
  /\ ChannelMassTransfCoef bulk_water_prop wall_water_prop (c * mass_flow_rate)
       channel_height channel_width number_channels spacer_porosity
     = Rpower c 0.69
       * ChannelMassTransfCoef bulk_water_prop wall_water_prop mass_flow_rate
           channel_height channel_width number_channels spacer_porosity.
Proof.
  intros Hmu Hh Hw Hn He Hm Hc.
  unfold ChannelHeatTransfCoef, ChannelMassTransfCoef, PetscPowReal. cbv zeta.
  destruct (reynolds_proportional_to_flow mass_flow_rate channel_height
              channel_width spacer_porosity
              (SaltWater.dyn_viscosity bulk_water_prop) number_channels
              Hn Hh Hw He Hmu) as [-> HK].
  destruct (reynolds_proportional_to_flow (c * mass_flow_rate) channel_height
              channel_width spacer_porosity
              (SaltWater.dyn_viscosity bulk_water_prop) number_channels
              Hn Hh Hw He Hmu) as [-> _].
  split; now apply spacer_correlation_flow_scaling.
Qed.

Lemma channel_coefs_flow_power_law_witness :
  ChannelHeatTransfCoef (SaltWater.Build 1.0e-3 0.6 7.0 1.5e-9 600)
    (SaltWater.Build 0.8e-3 0.62 5.5 1.8e-9 450) (2 * 0.05) 2e-3 0.1 4 0.8
  = Rpower 2 0.69
    * ChannelHeatTransfCoef (SaltWater.Build 1.0e-3 0.6 7.0 1.5e-9 600)
        (SaltWater.Build 0.8e-3 0.62 5.5 1.8e-9 450) 0.05 2e-3 0.1 4 0.8
  /\ ChannelMassTransfCoef (SaltWater.Build 1.0e-3 0.6 7.0 1.5e-9 600)
       (SaltWater.Build 0.8e-3 0.62 5.5 1.8e-9 450) (2 * 0.05) 2e-3 0.1 4 0.8
     = Rpower 2 0.69
       * ChannelMassTransfCoef (SaltWater.Build 1.0e-3 0.6 7.0 1.5e-9 600)
           (SaltWater.Build 0.8e-3 0.62 5.5 1.8e-9 450) 0.05 2e-3 0.1 4 0.8.
Proof.
  apply (channel_coefs_flow_power_law
           (SaltWater.Build 1.0e-3 0.6 7.0 1.5e-9 600)
           (SaltWater.Build 0.8e-3 0.62 5.5 1.8e-9 450)
           2e-3 0.1 4 0.8 0.05 2);
    cbn [SaltWater.dyn_viscosity]; try lra; lia.
Defined.

(** X5.  The channel height cancels in the Reynolds number, so for positive
    viscosity, width, channel count and porosity both coefficients are
    inversely proportional to the channel height: coefficient times height is
    the same for any two positive heights. *)
Theorem channel_coefs_inverse_in_height
    (bulk_water_prop wall_water_prop : SaltWaterProperties)
    (mass_flow_rate channel_width : R) (number_channels : Z)
    (spacer_porosity : R) (channel_height channel_height' : R) :
  0 < SaltWater.dyn_viscosity bulk_water_prop ->
  0 < channel_width -> (0 < number_channels)%Z -> 0 < spacer_porosity ->
  0 < channel_height -> 0 < channel_height' ->
  ChannelHeatTransfCoef bulk_water_prop wall_water_prop mass_flow_rate
    channel_height channel_width number_channels spacer_porosity
  * channel_height
  = ChannelHeatTransfCoef bulk_water_prop wall_water_prop mass_flow_rate
      channel_height' channel_width number_channels spacer_porosity
    * channel_height'
  /\ ChannelMassTransfCoef bulk_water_prop wall_water_prop mass_flow_rate
       channel_height channel_width number_channels spacer_porosity
     * channel_height
     = ChannelMassTransfCoef bulk_water_prop wall_water_prop mass_flow_rate
         channel_height' channel_width number_channels spacer_porosity
       * channel_height'.
Proof.
  intros Hmu Hw Hn He Hh Hh'.
  unfold ChannelHeatTransfCoef, ChannelMassTransfCoef, PetscPowReal. cbv zeta.
  destruct (reynolds_proportional_to_flow mass_flow_rate channel_height
              channel_width spacer_porosity
              (SaltWater.dyn_viscosity bulk_water_prop) number_channels
              Hn Hh Hw He Hmu) as [-> _].
  destruct (reynolds_proportional_to_flow mass_flow_rate channel_height'
              channel_width spacer_porosity
              (SaltWater.dyn_viscosity bulk_water_prop) number_channels
              Hn Hh' Hw He Hmu) as [-> _].
  split; field; lra.
Qed.

Lemma channel_coefs_inverse_in_height_witness :
  ChannelHeatTransfCoef (SaltWater.Build 1.0e-3 0.6 7.0 1.5e-9 600)
    (SaltWater.Build 0.8e-3 0.62 5.5 1.8e-9 450) 0.05 2e-3 0.1 4 0.8 * 2e-3
  = ChannelHeatTransfCoef (SaltWater.Build 1.0e-3 0.6 7.0 1.5e-9 600)
      (SaltWater.Build 0.8e-3 0.62 5.5 1.8e-9 450) 0.05 4e-3 0.1 4 0.8 * 4e-3
  /\ ChannelMassTransfCoef (SaltWater.Build 1.0e-3 0.6 7.0 1.5e-9 600)
       (SaltWater.Build 0.8e-3 0.62 5.5 1.8e-9 450) 0.05 2e-3 0.1 4 0.8 * 2e-3
     = ChannelMassTransfCoef (SaltWater.Build 1.0e-3 0.6 7.0 1.5e-9 600)
         (SaltWater.Build 0.8e-3 0.62 5.5 1.8e-9 450) 0.05 4e-3 0.1 4 0.8 * 4e-3.
Proof.
  apply (channel_coefs_inverse_in_height
           (SaltWater.Build 1.0e-3 0.6 7.0 1.5e-9 600)
           (SaltWater.Build 0.8e-3 0.62 5.5 1.8e-9 450)
           0.05 0.1 4 0.8 2e-3 4e-3);
    cbn [SaltWater.dyn_viscosity]; try lra; lia.
Defined.

(** X6.  The wall-side snapshot enters each coefficient as one factor: for a
    positive bulk Prandtl (Schmidt) number the coefficient is the one
    obtained with the bulk snapshot passed on both sides, times
    (bulk number / wall number) to the power 0.25.  Passing the same snapshot
    twice therefore applies no wall correction. *)
Theorem channel_coefs_wall_factor
    (bulk_water_prop wall_water_prop : SaltWaterProperties)
    (mass_flow_rate channel_height channel_width : R) (number_channels : Z)
    (spacer_porosity : R) :
  0 < SaltWater.prandtl bulk_water_prop ->
  0 < SaltWater.schmidt bulk_water_prop ->
  ChannelHeatTransfCoef bulk_water_prop wall_water_prop mass_flow_rate
    channel_height channel_width number_channels spacer_porosity
  = Rpower (SaltWater.prandtl bulk_water_prop
            / SaltWater.prandtl wall_water_prop) 0.25
    * ChannelHeatTransfCoef bulk_water_prop bulk_water_prop mass_flow_rate
        channel_height channel_width number_channels spacer_porosity
  /\ ChannelMassTransfCoef bulk_water_prop wall_water_prop mass_flow_rate
       channel_height channel_width number_channels spacer_porosity
     = Rpower (SaltWater.schmidt bulk_water_prop
               / SaltWater.schmidt wall_water_prop) 0.25
       * ChannelMassTransfCoef bulk_water_prop bulk_water_prop mass_flow_rate
           channel_height channel_width number_channels spacer_porosity.
Proof.
  intros Hpr Hsc.
  unfold ChannelHeatTransfCoef, ChannelMassTransfCoef, PetscPowReal. cbv zeta.
  replace (SaltWater.prandtl bulk_water_prop / SaltWater.prandtl bulk_water_prop)
    with 1 by (field; lra).
  replace (SaltWater.schmidt bulk_water_prop / SaltWater.schmidt bulk_water_prop)
    with 1 by (field; lra).
  rewrite Rpower_one_base. unfold Rdiv. split; ring.
Qed.

Lemma channel_coefs_wall_factor_witness :
  ChannelHeatTransfCoef (SaltWater.Build 1.0e-3 0.6 7.0 1.5e-9 600)
    (SaltWater.Build 0.8e-3 0.62 5.5 1.8e-9 450) 0.05 2e-3 0.1 4 0.8
  = Rpower (7.0 / 5.5) 0.25
    * ChannelHeatTransfCoef (SaltWater.Build 1.0e-3 0.6 7.0 1.5e-9 600)
        (SaltWater.Build 1.0e-3 0.6 7.0 1.5e-9 600) 0.05 2e-3 0.1 4 0.8
  /\ ChannelMassTransfCoef (SaltWater.Build 1.0e-3 0.6 7.0 1.5e-9 600)
       (SaltWater.Build 0.8e-3 0.62 5.5 1.8e-9 450) 0.05 2e-3 0.1 4 0.8
     = Rpower (600 / 450) 0.25
       * ChannelMassTransfCoef (SaltWater.Build 1.0e-3 0.6 7.0 1.5e-9 600)
           (SaltWater.Build 1.0e-3 0.6 7.0 1.5e-9 600) 0.05 2e-3 0.1 4 0.8.
Proof.
  apply (channel_coefs_wall_factor
           (SaltWater.Build 1.0e-3 0.6 7.0 1.5e-9 600)
           (SaltWater.Build 0.8e-3 0.62 5.5 1.8e-9 450)
           0.05 2e-3 0.1 4 0.8);
    cbn [SaltWater.prandtl SaltWater.schmidt]; lra.
Defined.

(** X7.  For a positive flow rate, viscosity, geometry and channel count (a
    positive Reynolds number), positive bulk conductivity, diffusivity,
    Prandtl and Schmidt numbers, a larger wall-side Prandtl number gives a
    strictly smaller [ChannelHeatTransfCoef], and a larger wall-side Schmidt
    number a strictly smaller [ChannelMassTransfCoef]. *)
Theorem channel_coefs_decrease_with_wall_number
    (bulk_water_prop wall_water_prop wall_water_prop' : SaltWaterProperties)
    (mass_flow_rate channel_height channel_width : R) (number_channels : Z)
    (spacer_porosity : R) :
  0 < SaltWater.dyn_viscosity bulk_water_prop ->
  0 < SaltWater.thermal_conductivity bulk_water_prop ->
  0 < SaltWater.mass_diffusivity bulk_water_prop ->
  0 < SaltWater.prandtl bulk_water_prop ->
  0 < SaltWater.schmidt bulk_water_prop ->
  0 < mass_flow_rate -> 0 < channel_height -> 0 < channel_width ->
  (0 < number_channels)%Z -> 0 < spacer_porosity ->
  0 < SaltWater.prandtl wall_water_prop < SaltWater.prandtl wall_water_prop' ->
  0 < SaltWater.schmidt wall_water_prop < SaltWater.schmidt wall_water_prop' ->
  ChannelHeatTransfCoef bulk_water_prop wall_water_prop' mass_flow_rate
    channel_height channel_width number_channels spacer_porosity
  < ChannelHeatTransfCoef bulk_water_prop wall_water_prop mass_flow_rate
      channel_height channel_width number_channels spacer_porosity
  /\ ChannelMassTransfCoef bulk_water_prop wall_water_prop' mass_flow_rate
       channel_height channel_width number_channels spacer_porosity
     < ChannelMassTransfCoef bulk_water_prop wall_water_prop mass_flow_rate
         channel_height channel_width number_channels spacer_porosity.
Proof.
  intros Hmu Hk HD Hpr Hsc Hm Hh Hw Hn He Hprw Hscw.
  unfold ChannelHeatTransfCoef, ChannelMassTransfCoef, PetscPowReal. cbv zeta.
  destruct (reynolds_proportional_to_flow mass_flow_rate channel_height
              channel_width spacer_porosity
              (SaltWater.dyn_viscosity bulk_water_prop) number_channels
              Hn Hh Hw He Hmu) as [-> HK].
  split; now apply spacer_correlation_wall_decreasing.
Qed.

Lemma channel_coefs_decrease_with_wall_number_witness :
  ChannelHeatTransfCoef (SaltWater.Build 1.0e-3 0.6 7.0 1.5e-9 600)
    (SaltWater.Build 0.9e-3 0.61 6.0 1.6e-9 500) 0.05 2e-3 0.1 4 0.8
  < ChannelHeatTransfCoef (SaltWater.Build 1.0e-3 0.6 7.0 1.5e-9 600)
      (SaltWater.Build 0.8e-3 0.62 5.5 1.8e-9 450) 0.05 2e-3 0.1 4 0.8
  /\ ChannelMassTransfCoef (SaltWater.Build 1.0e-3 0.6 7.0 1.5e-9 600)
       (SaltWater.Build 0.9e-3 0.61 6.0 1.6e-9 500) 0.05 2e-3 0.1 4 0.8
     < ChannelMassTransfCoef (SaltWater.Build 1.0e-3 0.6 7.0 1.5e-9 600)
         (SaltWater.Build 0.8e-3 0.62 5.5 1.8e-9 450) 0.05 2e-3 0.1 4 0.8.
Proof.
  apply (channel_coefs_decrease_with_wall_number
           (SaltWater.Build 1.0e-3 0.6 7.0 1.5e-9 600)
           (SaltWater.Build 0.8e-3 0.62 5.5 1.8e-9 450)
           (SaltWater.Build 0.9e-3 0.61 6.0 1.6e-9 500)
           0.05 2e-3 0.1 4 0.8);
    cbn [SaltWater.dyn_viscosity SaltWater.thermal_conductivity
         SaltWater.mass_diffusivity SaltWater.prandtl SaltWater.schmidt];
    try lra; lia.
Defined.

(** ** The mass flux against geometry and gap pressure *)

Lemma series_permeability_sym (a b : R) :
  series_permeability a b = series_permeability b a.
Proof.
  unfold series_permeability. now rewrite (Rmult_comm a b), (Rplus_comm a b).
Qed.

Lemma series_permeability_lt_l (k x y : R) :
  0 < k -> 0 < x -> x < y ->
  series_permeability x k < series_permeability y k.
Proof.
  intros Hk Hx Hxy. rewrite (series_permeability_sym x), (series_permeability_sym y).
  now apply series_permeability_lt.
Qed.

Lemma series_permeability_lt_both (a a' b b' : R) :
  0 < a -> a < a' -> 0 < b -> b < b' ->
  series_permeability a b < series_permeability a' b'.
Proof.
  intros Ha Haa Hb Hbb.
  apply Rlt_trans with (series_permeability a' b).
  - apply series_permeability_lt_l; lra.
  - apply series_permeability_lt; lra.
Qed.

Lemma series_permeability_below (a b : R) :
  0 < a -> 0 < b ->
  series_permeability a b < a /\ series_permeability a b < b.
Proof.
  intros Ha Hb. unfold series_permeability.
  split; apply quotient_lt_upper; nra.
Qed.

Section PermeabilityFacts.

Context {entrydata : EntryData}.

Hypothesis gas_constant_pos : 0 < gas_constant.
Hypothesis water_molar_mass_pos : 0 < water_molar_mass.

Lemma design_effective_diffusivity_pos (D_mol D_kn P_vacuum : R) :
  0 < D_mol -> 0 < D_kn -> 0 < atm_pressure + P_vacuum ->
  0 < design_effective_diffusivity D_mol D_kn P_vacuum.
Proof.
  intros Hm Hk HP. unfold design_effective_diffusivity.
  assert (0 < (atm_pressure + P_vacuum) * D_kn) by now apply Rmult_lt_0_compat.
  apply Rdiv_lt_0_compat; [now apply Rmult_lt_0_compat | lra].
Qed.

Lemma design_effective_diffusivity_scaled (r D_mol D_kn P_vacuum : R) :
  0 < r -> 0 < D_mol -> 0 < D_kn -> 0 < atm_pressure + P_vacuum ->
  design_effective_diffusivity (r * D_mol) (r * D_kn) P_vacuum
  = r * design_effective_diffusivity D_mol D_kn P_vacuum.
Proof.
  intros Hr Hm Hk HP. unfold design_effective_diffusivity.
  assert (0 < (atm_pressure + P_vacuum) * D_kn) by now apply Rmult_lt_0_compat.
  field. split; nra.
Qed.

Lemma design_effective_diffusivity_knudsen (D_mol D_kn D_kn' P_vacuum : R) :
  0 < D_mol -> 0 < D_kn -> D_kn < D_kn' -> 0 < atm_pressure + P_vacuum ->
  design_effective_diffusivity D_mol D_kn P_vacuum
  < design_effective_diffusivity D_mol D_kn' P_vacuum.
Proof.
  intros Hm Hk Hkk HP. unfold design_effective_diffusivity.
  set (P := atm_pressure + P_vacuum) in *.
  assert (HPk : 0 < P * D_kn) by now apply Rmult_lt_0_compat.
  assert (HPk' : 0 < P * D_kn') by (apply Rmult_lt_0_compat; lra).
  apply Rlt_0_minus.
  replace (D_mol * D_kn' / (D_mol + P * D_kn') - D_mol * D_kn / (D_mol + P * D_kn))
    with (D_mol * D_mol * (D_kn' - D_kn)
          / ((D_mol + P * D_kn') * (D_mol + P * D_kn))) by (field; lra).
  apply Rdiv_lt_0_compat.
  - apply Rmult_lt_0_compat; [apply Rmult_lt_0_compat|]; lra.
  - apply Rmult_lt_0_compat; lra.
Qed.

Lemma design_effective_diffusivity_pressure (D_mol D_kn P_vacuum P_vacuum' : R) :
  0 < D_mol -> 0 < D_kn ->
  0 < atm_pressure + P_vacuum -> P_vacuum < P_vacuum' ->
  design_effective_diffusivity D_mol D_kn P_vacuum'
  < design_effective_diffusivity D_mol D_kn P_vacuum.
Proof.
  intros Hm Hk HP HPP. unfold design_effective_diffusivity.
  assert (HPk : 0 < (atm_pressure + P_vacuum) * D_kn)
    by now apply Rmult_lt_0_compat.
  assert (HPk' : (atm_pressure + P_vacuum) * D_kn
                 < (atm_pressure + P_vacuum') * D_kn)
    by (apply Rmult_lt_compat_r; lra).
  apply Rmult_lt_compat_l; [now apply Rmult_lt_0_compat|].
  apply Rinv_lt_contravar; [apply Rmult_lt_0_compat|]; lra.
Qed.

Lemma design_membrane_permeability_unit
    (porosity tortuosity thickness pore_diameter T P_vacuum : R) :
  0 < porosity -> 0 < tortuosity -> 0 < thickness -> 0 < pore_diameter ->
  0 < T -> 0 < atm_pressure + P_vacuum ->
  design_membrane_permeability porosity tortuosity thickness pore_diameter T
    P_vacuum
  = porosity / tortuosity / thickness
    * design_membrane_permeability 1 1 1 pore_diameter T P_vacuum.
Proof.
  intros He Ht Hth Hd HT HP.
  assert (Hr : 0 < porosity / tortuosity) by now apply Rdiv_lt_0_compat.
  unfold design_membrane_permeability.
  replace (design_molecular_diffusivity porosity tortuosity T)
    with (porosity / tortuosity * design_molecular_diffusivity 1 1 T)
    by (unfold design_molecular_diffusivity; field; lra).
  replace (design_knudsen_diffusivity porosity tortuosity pore_diameter T)
    with (porosity / tortuosity * design_knudsen_diffusivity 1 1 pore_diameter T)
    by (unfold design_knudsen_diffusivity; field; lra).
  rewrite design_effective_diffusivity_scaled; try assumption.
  - field. repeat split; lra.
  - apply design_molecular_diffusivity_pos; lra.
  - apply design_knudsen_diffusivity_pos; assumption || lra.
Qed.

End PermeabilityFacts.

Section LayerFacts.

Context {entrydata : EntryData}.

Hypothesis gas_constant_pos : 0 < gas_constant.
Hypothesis water_molar_mass_pos : 0 < water_molar_mass.

Lemma design_membrane_permeability_thickness
    (porosity tortuosity thickness thickness' pore_diameter T P_vacuum : R) :
  0 < porosity -> 0 < tortuosity -> 0 < thickness -> thickness < thickness' ->
  0 < pore_diameter -> 0 < T -> 0 < atm_pressure + P_vacuum ->
  design_membrane_permeability porosity tortuosity thickness' pore_diameter T
    P_vacuum
  < design_membrane_permeability porosity tortuosity thickness pore_diameter T
      P_vacuum.
Proof.
  intros He Ht Hth Hthth Hd HT HP.
  rewrite (design_membrane_permeability_unit gas_constant_pos water_molar_mass_pos
             porosity tortuosity thickness) by assumption.
  rewrite (design_membrane_permeability_unit gas_constant_pos water_molar_mass_pos
             porosity tortuosity thickness') by (assumption || lra).
  apply Rmult_lt_compat_r.
  - apply design_membrane_permeability_pos; assumption || lra.
  - apply Rmult_lt_compat_l; [now apply Rdiv_lt_0_compat|].
    apply Rinv_lt_contravar; [apply Rmult_lt_0_compat; lra | exact Hthth].
Qed.

Lemma design_membrane_permeability_porosity
    (porosity porosity' tortuosity thickness pore_diameter T P_vacuum : R) :
  0 < porosity -> porosity < porosity' -> 0 < tortuosity -> 0 < thickness ->
  0 < pore_diameter -> 0 < T -> 0 < atm_pressure + P_vacuum ->
  design_membrane_permeability porosity tortuosity thickness pore_diameter T
    P_vacuum
  < design_membrane_permeability porosity' tortuosity thickness pore_diameter T
      P_vacuum.
Proof.
  intros He Hee Ht Hth Hd HT HP.
  rewrite (design_membrane_permeability_unit gas_constant_pos water_molar_mass_pos
             porosity tortuosity thickness) by assumption.
  rewrite (design_membrane_permeability_unit gas_constant_pos water_molar_mass_pos
             porosity' tortuosity thickness) by (assumption || lra).
  apply Rmult_lt_compat_r.
  - apply design_membrane_permeability_pos; assumption || lra.
  - apply Rmult_lt_compat_r; [now apply Rinv_0_lt_compat|].
    apply Rmult_lt_compat_r; [now apply Rinv_0_lt_compat | exact Hee].
Qed.

Lemma design_membrane_permeability_tortuosity
    (porosity tortuosity tortuosity' thickness pore_diameter T P_vacuum : R) :
  0 < porosity -> 0 < tortuosity -> tortuosity < tortuosity' -> 0 < thickness ->
  0 < pore_diameter -> 0 < T -> 0 < atm_pressure + P_vacuum ->
  design_membrane_permeability porosity tortuosity' thickness pore_diameter T
    P_vacuum
  < design_membrane_permeability porosity tortuosity thickness pore_diameter T
      P_vacuum.
Proof.
  intros He Ht Htt Hth Hd HT HP.
  rewrite (design_membrane_permeability_unit gas_constant_pos water_molar_mass_pos
             porosity tortuosity thickness) by assumption.
  rewrite (design_membrane_permeability_unit gas_constant_pos water_molar_mass_pos
             porosity tortuosity' thickness) by (assumption || lra).
  apply Rmult_lt_compat_r.
  - apply design_membrane_permeability_pos; assumption || lra.
  - apply Rmult_lt_compat_r; [now apply Rinv_0_lt_compat|].
    apply Rmult_lt_compat_l; [exact He|].
    apply Rinv_lt_contravar; [apply Rmult_lt_0_compat; lra | exact Htt].
Qed.

Lemma membrane_quotient_pos (T thickness : R) :
  0 < T -> 0 < thickness -> 0 < / (gas_constant * T * thickness).
Proof.
  intros HT Hth. apply Rinv_0_lt_compat. repeat apply Rmult_lt_0_compat; lra.
Qed.

Lemma design_membrane_permeability_pore
    (porosity tortuosity thickness pore_diameter pore_diameter' T P_vacuum : R) :
  0 < porosity -> 0 < tortuosity -> 0 < thickness ->
  0 < pore_diameter -> pore_diameter < pore_diameter' ->
  0 < T -> 0 < atm_pressure + P_vacuum ->
  design_membrane_permeability porosity tortuosity thickness pore_diameter T
    P_vacuum
  < design_membrane_permeability porosity tortuosity thickness pore_diameter' T
      P_vacuum.
Proof.
  intros He Ht Hth Hd Hdd HT HP.
  unfold design_membrane_permeability.
  apply Rmult_lt_compat_r; [now apply membrane_quotient_pos|].
  apply Rmult_lt_compat_l; [exact water_molar_mass_pos|].
  apply design_effective_diffusivity_knudsen; try assumption.
  - apply design_molecular_diffusivity_pos; assumption.
  - apply design_knudsen_diffusivity_pos; assumption.
  - unfold design_knudsen_diffusivity.
    apply Rmult_lt_compat_r.
    + apply sqrt_lt_R0. now apply kinetic_factor_pos.
    + apply Rmult_lt_compat_r; [now apply Rdiv_lt_0_compat | lra].
Qed.

Lemma design_membrane_permeability_pressure
    (porosity tortuosity thickness pore_diameter T P_vacuum P_vacuum' : R) :
  0 < porosity -> 0 < tortuosity -> 0 < thickness -> 0 < pore_diameter ->
  0 < T -> 0 < atm_pressure + P_vacuum -> P_vacuum < P_vacuum' ->
  design_membrane_permeability porosity tortuosity thickness pore_diameter T
    P_vacuum'
  < design_membrane_permeability porosity tortuosity thickness pore_diameter T
      P_vacuum.
Proof.
  intros He Ht Hth Hd HT HP HPP.
  unfold design_membrane_permeability.
  apply Rmult_lt_compat_r; [now apply membrane_quotient_pos|].
  apply Rmult_lt_compat_l; [exact water_molar_mass_pos|].
  apply design_effective_diffusivity_pressure; try assumption.
  - apply design_molecular_diffusivity_pos; assumption.
  - apply design_knudsen_diffusivity_pos; assumption.
Qed.

Lemma molar_gap_permeability_decreasing
    (gap_thickness gap_thickness' T P_vacuum P_vacuum' : R) :
  0 < gap_thickness -> gap_thickness <= gap_thickness' -> 0 < T ->
  0 < atm_pressure + P_vacuum -> P_vacuum <= P_vacuum' ->
  gap_thickness < gap_thickness' \/ P_vacuum < P_vacuum' ->
  molar_gap_permeability gap_thickness' T P_vacuum'
  < molar_gap_permeability gap_thickness T P_vacuum.
Proof.
  intros Hg Hgg HT HP HPP Hstrict.
  unfold molar_gap_permeability.
  assert (HRT : 0 < gas_constant * T) by (apply Rmult_lt_0_compat; lra).
  apply Rmult_lt_compat_l.
  - apply Rmult_lt_0_compat; [exact water_molar_mass_pos|].
    apply design_molecular_diffusivity_pos; lra.
  - apply Rinv_lt_contravar.
    + apply Rmult_lt_0_compat; apply gap_denominator_pos; assumption || lra.
    + rewrite !(Rmult_assoc (gas_constant * T)).
      apply Rmult_lt_compat_l; [exact HRT|].
      destruct Hstrict as [Hs | Hs]; nra.
Qed.

End LayerFacts.

Section MassFluxGeometry.

Context {entrydata : EntryData}.

(** X8.  With a positive pressure difference and valid inputs, the flux
    through membrane and gap in series is strictly below the flux either
    layer would carry alone under the whole pressure difference. *)
Theorem MassFlux_below_each_layer
    (membrane_porosity membrane_tortuosity membrane_thickness pore_diameter
     gap_spacer_porosity air_gap_thickness temperature_membrane temperature_gap
     feed_membrane_pressure film_boundary_pressure vacuum_pressure : R) :
  0 < gas_constant -> 0 < water_molar_mass ->
  0 < membrane_porosity -> 0 < membrane_tortuosity ->
  0 < membrane_thickness -> 0 < pore_diameter -> 0 < air_gap_thickness ->
  0 < temperature_membrane + 273.15 -> 0 < temperature_gap + 273.15 ->
  0 < atm_pressure + vacuum_pressure ->
  film_boundary_pressure < feed_membrane_pressure ->
  MassFlux membrane_porosity membrane_tortuosity membrane_thickness pore_diameter
    gap_spacer_porosity air_gap_thickness temperature_membrane temperature_gap
    feed_membrane_pressure film_boundary_pressure vacuum_pressure
  < design_membrane_permeability membrane_porosity membrane_tortuosity
      membrane_thickness pore_diameter (temperature_membrane + 273.15)
      vacuum_pressure
    * (feed_membrane_pressure - film_boundary_pressure)
  /\ MassFlux membrane_porosity membrane_tortuosity membrane_thickness
       pore_diameter gap_spacer_porosity air_gap_thickness temperature_membrane
       temperature_gap feed_membrane_pressure film_boundary_pressure
       vacuum_pressure
     < molar_gap_permeability air_gap_thickness (temperature_gap + 273.15)
         vacuum_pressure
       * (feed_membrane_pressure - film_boundary_pressure).
Proof.
  intros HR HM He Ht Hth Hd Hg HTm HTg HP Hdp.
  rewrite MassFlux_overall_permeability. unfold overall_permeability.
  destruct (series_permeability_below
              (design_membrane_permeability membrane_porosity membrane_tortuosity
                 membrane_thickness pore_diameter (temperature_membrane + 273.15)
                 vacuum_pressure)
              (molar_gap_permeability air_gap_thickness
                 (temperature_gap + 273.15) vacuum_pressure)) as [Hm Hgap].
  - now apply design_membrane_permeability_pos.
  - now apply molar_gap_permeability_pos.
  - split; apply Rmult_lt_compat_r; lra.
Qed.

(** X9.  With a positive pressure difference and valid inputs, a thicker
    membrane and a thicker air gap each give a strictly smaller flux. *)
Theorem MassFlux_decreases_with_thickness
    (membrane_porosity membrane_tortuosity membrane_thickness pore_diameter
     gap_spacer_porosity air_gap_thickness temperature_membrane temperature_gap
     feed_membrane_pressure film_boundary_pressure vacuum_pressure : R)
    (membrane_thickness' air_gap_thickness' : R) :
  0 < gas_constant -> 0 < water_molar_mass ->
  0 < membrane_porosity -> 0 < membrane_tortuosity ->
  0 < membrane_thickness -> 0 < pore_diameter -> 0 < air_gap_thickness ->
  0 < temperature_membrane + 273.15 -> 0 < temperature_gap + 273.15 ->
  0 < atm_pressure + vacuum_pressure ->
  film_boundary_pressure < feed_membrane_pressure ->
  membrane_thickness < membrane_thickness' ->
  air_gap_thickness < air_gap_thickness' ->
  MassFlux membrane_porosity membrane_tortuosity membrane_thickness' pore_diameter
    gap_spacer_porosity air_gap_thickness temperature_membrane temperature_gap
    feed_membrane_pressure film_boundary_pressure vacuum_pressure
  < MassFlux membrane_porosity membrane_tortuosity membrane_thickness pore_diameter
      gap_spacer_porosity air_gap_thickness temperature_membrane temperature_gap
      feed_membrane_pressure film_boundary_pressure vacuum_pressure
  /\ MassFlux membrane_porosity membrane_tortuosity membrane_thickness
       pore_diameter gap_spacer_porosity air_gap_thickness' temperature_membrane
       temperature_gap feed_membrane_pressure film_boundary_pressure
       vacuum_pressure
     < MassFlux membrane_porosity membrane_tortuosity membrane_thickness
         pore_diameter gap_spacer_porosity air_gap_thickness temperature_membrane
         temperature_gap feed_membrane_pressure film_boundary_pressure
         vacuum_pressure.
Proof.
  intros HR HM He Ht Hth Hd Hg HTm HTg HP Hdp Hthth Hgg.
  rewrite !MassFlux_overall_permeability. unfold overall_permeability.
  split; (apply Rmult_lt_compat_r; [lra|]).
  - apply series_permeability_lt_l.
    + now apply molar_gap_permeability_pos.
    + apply design_membrane_permeability_pos; assumption || lra.
    + now apply design_membrane_permeability_thickness.
  - apply series_permeability_lt.
    + now apply design_membrane_permeability_pos.
    + apply molar_gap_permeability_pos; assumption || lra.
    + apply molar_gap_permeability_decreasing; assumption || lra || (left; lra).
Qed.

(** X10.  With a positive pressure difference and valid inputs, a higher
    vacuum_pressure argument (a higher total gas pressure P_atm + P_vacuum)
    gives a strictly smaller flux. *)
Theorem MassFlux_decreases_with_gas_pressure
    (membrane_porosity membrane_tortuosity membrane_thickness pore_diameter
     gap_spacer_porosity air_gap_thickness temperature_membrane temperature_gap
     feed_membrane_pressure film_boundary_pressure vacuum_pressure : R)
    (vacuum_pressure' : R) :
  0 < gas_constant -> 0 < water_molar_mass ->
  0 < membrane_porosity -> 0 < membrane_tortuosity ->
  0 < membrane_thickness -> 0 < pore_diameter -> 0 < air_gap_thickness ->
  0 < temperature_membrane + 273.15 -> 0 < temperature_gap + 273.15 ->
  0 < atm_pressure + vacuum_pressure ->
  film_boundary_pressure < feed_membrane_pressure ->
  vacuum_pressure < vacuum_pressure' ->
  MassFlux membrane_porosity membrane_tortuosity membrane_thickness pore_diameter
    gap_spacer_porosity air_gap_thickness temperature_membrane temperature_gap
    feed_membrane_pressure film_boundary_pressure vacuum_pressure'
  < MassFlux membrane_porosity membrane_tortuosity membrane_thickness pore_diameter
      gap_spacer_porosity air_gap_thickness temperature_membrane temperature_gap
      feed_membrane_pressure film_boundary_pressure vacuum_pressure.
Proof.
  intros HR HM He Ht Hth Hd Hg HTm HTg HP Hdp HPP.
  rewrite !MassFlux_overall_permeability. unfold overall_permeability.
  apply Rmult_lt_compat_r; [lra|].
  apply series_permeability_lt_both.
  - apply design_membrane_permeability_pos; assumption || lra.
  - now apply design_membrane_permeability_pressure.
  - apply molar_gap_permeability_pos; assumption || lra.
  - apply molar_gap_permeability_decreasing; assumption || lra || (right; lra).
Qed.

(** X11.  With a positive pressure difference and valid inputs, the flux is
    strictly increasing in the membrane porosity and in the pore diameter,
    and strictly decreasing in the membrane tortuosity. *)
Theorem MassFlux_against_membrane_structure
    (membrane_porosity membrane_tortuosity membrane_thickness pore_diameter
     gap_spacer_porosity air_gap_thickness temperature_membrane temperature_gap
     feed_membrane_pressure film_boundary_pressure vacuum_pressure : R)
    (membrane_porosity' membrane_tortuosity' pore_diameter' : R) :
  0 < gas_constant -> 0 < water_molar_mass ->
  0 < membrane_porosity -> 0 < membrane_tortuosity ->
  0 < membrane_thickness -> 0 < pore_diameter -> 0 < air_gap_thickness ->
  0 < temperature_membrane + 273.15 -> 0 < temperature_gap + 273.15 ->
  0 < atm_pressure + vacuum_pressure ->
  film_boundary_pressure < feed_membrane_pressure ->
  membrane_porosity < membrane_porosity' ->
  membrane_tortuosity < membrane_tortuosity' ->
  pore_diameter < pore_diameter' ->
  MassFlux membrane_porosity membrane_tortuosity membrane_thickness pore_diameter
    gap_spacer_porosity air_gap_thickness temperature_membrane temperature_gap
    feed_membrane_pressure film_boundary_pressure vacuum_pressure
  < MassFlux membrane_porosity' membrane_tortuosity membrane_thickness
      pore_diameter gap_spacer_porosity air_gap_thickness temperature_membrane
      temperature_gap feed_membrane_pressure film_boundary_pressure
      vacuum_pressure
  /\ MassFlux membrane_porosity membrane_tortuosity membrane_thickness
       pore_diameter gap_spacer_porosity air_gap_thickness temperature_membrane
       temperature_gap feed_membrane_pressure film_boundary_pressure
       vacuum_pressure
     < MassFlux membrane_porosity membrane_tortuosity membrane_thickness
         pore_diameter' gap_spacer_porosity air_gap_thickness
         temperature_membrane temperature_gap feed_membrane_pressure
         film_boundary_pressure vacuum_pressure
  /\ MassFlux membrane_porosity membrane_tortuosity' membrane_thickness
       pore_diameter gap_spacer_porosity air_gap_thickness temperature_membrane
       temperature_gap feed_membrane_pressure film_boundary_pressure
       vacuum_pressure
     < MassFlux membrane_porosity membrane_tortuosity membrane_thickness
         pore_diameter gap_spacer_porosity air_gap_thickness temperature_membrane
         temperature_gap feed_membrane_pressure film_boundary_pressure
         vacuum_pressure.
Proof.
  intros HR HM He Ht Hth Hd Hg HTm HTg HP Hdp Hee Htt Hdd.
  rewrite !MassFlux_overall_permeability. unfold overall_permeability.
  assert (Hgap : 0 < molar_gap_permeability air_gap_thickness
                       (temperature_gap + 273.15) vacuum_pressure)
    by now apply molar_gap_permeability_pos.
  repeat split; (apply Rmult_lt_compat_r; [lra|]);
    (apply series_permeability_lt_l; [exact Hgap | |]).
  - now apply design_membrane_permeability_pos.
  - now apply design_membrane_permeability_porosity.
  - now apply design_membrane_permeability_pos.
  - now apply design_membrane_permeability_pore.
  - apply design_membrane_permeability_pos; assumption || lra.
  - now apply design_membrane_permeability_tortuosity.
Qed.

End MassFluxGeometry.

Ltac SI_values :=
  cbn [gas_constant water_molar_mass atm_pressure SI_entrydata]; lra.

Lemma MassFlux_below_each_layer_witness :
  MassFlux (entrydata := SI_entrydata)
    0.8 1.5 100e-6 0.2e-6 0.8 1e-3 60 25 19946 3170 0
  < design_membrane_permeability (entrydata := SI_entrydata)
      0.8 1.5 100e-6 0.2e-6 (60 + 273.15) 0 * (19946 - 3170)
  /\ MassFlux (entrydata := SI_entrydata)
       0.8 1.5 100e-6 0.2e-6 0.8 1e-3 60 25 19946 3170 0
     < molar_gap_permeability (entrydata := SI_entrydata) 1e-3 (25 + 273.15) 0
       * (19946 - 3170).
Proof.
  apply (MassFlux_below_each_layer (entrydata := SI_entrydata)
           0.8 1.5 100e-6 0.2e-6 0.8 1e-3 60 25 19946 3170 0); SI_values.
Defined.

Lemma MassFlux_decreases_with_thickness_witness :
  MassFlux (entrydata := SI_entrydata)
    0.8 1.5 200e-6 0.2e-6 0.8 1e-3 60 25 19946 3170 0
  < MassFlux (entrydata := SI_entrydata)
      0.8 1.5 100e-6 0.2e-6 0.8 1e-3 60 25 19946 3170 0
  /\ MassFlux (entrydata := SI_entrydata)
       0.8 1.5 100e-6 0.2e-6 0.8 2e-3 60 25 19946 3170 0
     < MassFlux (entrydata := SI_entrydata)
         0.8 1.5 100e-6 0.2e-6 0.8 1e-3 60 25 19946 3170 0.
Proof.
  apply (MassFlux_decreases_with_thickness (entrydata := SI_entrydata)
           0.8 1.5 100e-6 0.2e-6 0.8 1e-3 60 25 19946 3170 0 200e-6 2e-3);
    SI_values.
Defined.

Lemma MassFlux_decreases_with_gas_pressure_witness :
  MassFlux (entrydata := SI_entrydata)
    0.8 1.5 100e-6 0.2e-6 0.8 1e-3 60 25 19946 3170 0
  < MassFlux (entrydata := SI_entrydata)
      0.8 1.5 100e-6 0.2e-6 0.8 1e-3 60 25 19946 3170 (-50000).
Proof.
  apply (MassFlux_decreases_with_gas_pressure (entrydata := SI_entrydata)
           0.8 1.5 100e-6 0.2e-6 0.8 1e-3 60 25 19946 3170 (-50000) 0);
    SI_values.
Defined.

Lemma MassFlux_against_membrane_structure_witness :
  MassFlux (entrydata := SI_entrydata)
    0.8 1.5 100e-6 0.2e-6 0.8 1e-3 60 25 19946 3170 0
  < MassFlux (entrydata := SI_entrydata)
      0.9 1.5 100e-6 0.2e-6 0.8 1e-3 60 25 19946 3170 0
  /\ MassFlux (entrydata := SI_entrydata)
       0.8 1.5 100e-6 0.2e-6 0.8 1e-3 60 25 19946 3170 0
     < MassFlux (entrydata := SI_entrydata)
         0.8 1.5 100e-6 0.4e-6 0.8 1e-3 60 25 19946 3170 0
  /\ MassFlux (entrydata := SI_entrydata)
       0.8 2 100e-6 0.2e-6 0.8 1e-3 60 25 19946 3170 0
     < MassFlux (entrydata := SI_entrydata)
         0.8 1.5 100e-6 0.2e-6 0.8 1e-3 60 25 19946 3170 0.
Proof.
  apply (MassFlux_against_membrane_structure (entrydata := SI_entrydata)
           0.8 1.5 100e-6 0.2e-6 0.8 1e-3 60 25 19946 3170 0 0.9 2 0.4e-6);
    SI_values.
Defined.

(** ** Wall concentration against the flux *)

(** The back-conversion of [SaltWaterConcentration] is increasing in the
    concentration it is applied to. *)
Lemma back_conversion_increasing (M rho rho_NaCl c c' : R) :
  0 < M -> 0 < rho < rho_NaCl -> 0 < c < c' ->
  1000 * M * rho_NaCl * c / (rho * rho_NaCl + M * c * (rho_NaCl - rho))
  < 1000 * M * rho_NaCl * c' / (rho * rho_NaCl + M * c' * (rho_NaCl - rho)).
Proof.
  intros HM [Hrho Hrho'] [Hc Hcc].
  assert (Hd : 0 < M * (rho_NaCl - rho)) by (apply Rmult_lt_0_compat; lra).
  assert (Hb : 0 < rho * rho_NaCl) by (apply Rmult_lt_0_compat; lra).
  assert (HD : 0 < rho * rho_NaCl + M * c * (rho_NaCl - rho)) by nra.
  assert (HD' : 0 < rho * rho_NaCl + M * c' * (rho_NaCl - rho)) by nra.
  apply Rlt_0_minus.
  replace (1000 * M * rho_NaCl * c'
           / (rho * rho_NaCl + M * c' * (rho_NaCl - rho))
           - 1000 * M * rho_NaCl * c
             / (rho * rho_NaCl + M * c * (rho_NaCl - rho)))
    with (1000 * M * rho_NaCl * (rho * rho_NaCl) * (c' - c)
          / ((rho * rho_NaCl + M * c' * (rho_NaCl - rho))
             * (rho * rho_NaCl + M * c * (rho_NaCl - rho))))
    by (field; lra).
  apply Rdiv_lt_0_compat; [|now apply Rmult_lt_0_compat].
  apply Rmult_lt_0_compat; [|lra].
  apply Rmult_lt_0_compat; [|exact Hb].
  apply Rmult_lt_0_compat; [|lra].
  apply Rmult_lt_0_compat; lra.
Qed.

Section PolarizationFacts.

Context {properties : PropertyProvider}.


(** X13.  For a positive fresh-water density and mass-transfer coefficient,
    [SaltWaterConcentration] maps salinity 0 to 0 for every flux whose
    polarization exponent mass_flux / (density * mass_transfer_coef) stays at
    or below 600, where the exponential is finite. *)
Theorem SaltWaterConcentration_fresh_water
    (mass_transfer_coef temperature mass_flux : R) :
  0 < SaltWaterDensity temperature 0 -> 0 < mass_transfer_coef ->
  mass_flux / (SaltWaterDensity temperature 0 * mass_transfer_coef) <= 600 ->
  SaltWaterConcentration mass_transfer_coef temperature 0 mass_flux = 0.
Proof.
  intros Hrho Hk Hbound.
  unfold SaltWaterConcentration, PetscExpReal. cbv zeta. whole_numbers.
  set (rho := SaltWaterDensity temperature 0) in *.
  set (M := 58.44e-3). assert (HM : 0 < M) by (unfold M; lra). clearbody M.
  unfold Rdiv. ring.
Qed.


End PolarizationFacts.



Lemma SaltWaterConcentration_fresh_water_witness :
  SaltWaterConcentration (properties := fresh_water_provider) 1e-5 25 0 0.002
  = 0.
Proof.
  apply (SaltWaterConcentration_fresh_water
           (properties := fresh_water_provider) 1e-5 25 0.002);
    cbn [SaltWaterDensity fresh_water_provider]; lra.
Defined.
